(** * Discounted-cash-flow valuation engine and sensitivity sweep

    A shallow embedding of [discounted_cash_flow] and
    [sensitivity_analysis] of [dcf_app_v2.py], and the properties of the
    valuation engine checked against it.

    Modelling decisions, fixed once for the whole development:

    - Numbers.  A Python [int] or [float] is an exact rational ([Qc],
      Leibniz equality).  The figure read from a statement with
      [.iloc[0]] is a [numpy.float64], and so is every value computed
      from it: a rational, an infinity or NaN ([float64]).  Rounding of
      binary floating point is outside the model; every formula below is
      the exact-arithmetic reading of the corresponding Python
      expression.
    - Division.  Every division of the calculations has a
      [numpy.float64] operand, so [x / y] is NumPy's: a zero divisor
      raises nothing and gives an infinity, or NaN for [0 / 0].  A zero
      has no sign in the model, and [x / 0] has the sign of [x], as for
      the positive zero the provider's figures hold.
    - Range.  The powers of the model are exact.  Python's float power
      raises [OverflowError] once the result leaves the range of a
      double; [powers_in_range] is the condition under which it does not,
      and the statements that promise a valuation assume it.
    - Exceptions.  A computation either returns a value or raises
      ([outcome]); [try ... except Exception] is [catch_all].
    - The market-data provider.  [yf.Ticker(ticker)] is a parameter
      [yf_Ticker]; the three attributes the code reads ([info],
      [cashflow], [balance_sheet]) are fields of a record.  A data frame
      is its list of rows (index label, values by column); labels are
      unique, as in the provider's statements.
    - Dynamic types.  The arguments are typed ([ticker] a string, the
      rates numbers, the horizon an integer), so the two [isinstance]
      checks at the head of [discounted_cash_flow] always pass. *)

From Stdlib Require Import QArith Qcanon ZArith String.
From stdpp Require Import gmap strings list fin_maps numbers.

Local Open Scope Qc_scope.

(** ** Exceptions and outcomes *)

Inductive exn : Type :=
  | TypeError (msg : string)
  | ValueError (msg : string)
  | KeyError (key : string)
  | IndexError (msg : string)
  | ZeroDivisionError (msg : string)
  | NameError (name : string).

(** [str(e)]: the message of the exception; a [KeyError] prints the
    [repr] of its key. *)
Definition str (e : exn) : string :=
  match e with
  | TypeError msg | ValueError msg | IndexError msg
  | ZeroDivisionError msg => msg
  | KeyError key => "'" +:+ key +:+ "'"
  | NameError name => "name '" +:+ name +:+ "' is not defined"
  end.

Inductive outcome (A : Type) : Type :=
  | Return (a : A)
  | Raise (e : exn).
Arguments Return {A} a.
Arguments Raise {A} e.

Global Instance outcome_ret : MRet outcome := λ A, Return.
Global Instance outcome_bind : MBind outcome := λ A B f m,
  match m with
  | Return a => f a
  | Raise e => Raise e
  end.

(** ** Numbers *)

(** A [numpy.float64]. *)
Inductive float64 : Type :=
  | Finite (q : Qc)
  | Infinity (negative : bool)
  | NotANumber.

Coercion Finite : Qc >-> float64.

Global Instance float64_eq_dec : EqDecision float64.
Proof. solve_decision. Defined.

Definition negative (q : Qc) : bool := bool_decide (q < 0).

(** [-x] *)
Definition np_negative (x : float64) : float64 :=
  match x with
  | Finite q => Finite (- q)
  | Infinity s => Infinity (negb s)
  | NotANumber => NotANumber
  end.

(** [x + y] *)
Definition np_add (x y : float64) : float64 :=
  match x, y with
  | Finite a, Finite b => Finite (a + b)
  | Finite _, Infinity s | Infinity s, Finite _ => Infinity s
  | Infinity s, Infinity t => if bool_decide (s = t) then Infinity s else NotANumber
  | _, _ => NotANumber
  end.

(** [x - y] *)
Definition np_subtract (x y : float64) : float64 := np_add x (np_negative y).

(** [x * y] *)
Definition np_multiply (x y : float64) : float64 :=
  match x, y with
  | Finite a, Finite b => Finite (a * b)
  | Finite a, Infinity s | Infinity s, Finite a =>
      if decide (a = 0) then NotANumber else Infinity (xorb s (negative a))
  | Infinity s, Infinity t => Infinity (xorb s t)
  | _, _ => NotANumber
  end.

(** [x / y]: a zero divisor gives an infinity with the sign of [x], or
    NaN when [x] is zero too; nothing is raised. *)
Definition truediv (x y : float64) : float64 :=
  match x, y with
  | Finite a, Finite b =>
      if decide (b = 0)
      then if decide (a = 0) then NotANumber else Infinity (negative a)
      else Finite (a / b)
  | Finite _, Infinity _ => Finite 0
  | Infinity s, Finite b => Infinity (xorb s (negative b))
  | _, _ => NotANumber
  end.

(** [x < y]: false as soon as one side is NaN *)
Definition np_less (x y : float64) : bool :=
  match x, y with
  | Finite a, Finite b => bool_decide (a < b)
  | Finite _, Infinity s => negb s
  | Infinity s, Finite _ => s
  | Infinity s, Infinity t => s && negb t
  | _, _ => false
  end.

Declare Scope float_scope.
Delimit Scope float_scope with F.
Notation "- x" := (np_negative x) : float_scope.
Infix "+" := np_add : float_scope.
Infix "-" := np_subtract : float_scope.
Infix "*" := np_multiply : float_scope.
Infix "/" := truediv : float_scope.

(** [x ** n] for Python floats and an integer exponent *)
Definition pow (x : Qc) (n : Z) : outcome Qc :=
  if decide (0 ≤ n)%Z then Return (x ^ Z.to_nat n)
  else if decide (x = 0)
       then Raise (ZeroDivisionError "0.0 cannot be raised to a negative power")
       else Return (/ (x ^ Z.to_nat (- n))).

(** [sum(l)]: left to right, from 0 *)
Definition sum (l : list float64) : float64 := foldl np_add (Finite 0) l.

(** ** Python values stored in dictionaries *)

Inductive pyval : Type :=
  | VNone
  | VNum (x : float64)
  | VStr (s : string)
  | VList (l : list float64).

Global Instance pyval_eq_dec : EqDecision pyval.
Proof. solve_decision. Defined.

(** [range(1, n+1)] *)
Definition range1 (n : Z) : list Z :=
  (λ i : nat, Z.of_nat (S i)) <$> seq 0 (Z.to_nat n).

(** [l[-1]] *)
Definition last_item (l : list float64) : outcome float64 :=
  match list.last l with
  | Some x => Return x
  | None => Raise (IndexError "list index out of range")
  end.

(** ** Data frames of the provider *)

Inductive cell : Type :=
  | NaN
  | Num (q : Qc).

Definition Series : Type := list cell.
Definition DataFrame : Type := list (string * Series).

(** [df.empty]: no rows, or no columns *)
Definition df_empty (df : DataFrame) : bool :=
  forallb (λ row : string * Series, match row.2 with [] => true | _ => false end) df.

(** [df.loc[label]] *)
Fixpoint loc (df : DataFrame) (label : string) : outcome Series :=
  match df with
  | [] => Raise (KeyError label)
  | (l, row) :: rest => if decide (l = label) then Return row else loc rest label
  end.

(** [row.iloc[0]] *)
Definition iloc0 (row : Series) : outcome cell :=
  match row with
  | [] => Raise (IndexError "single positional indexer is out-of-bounds")
  | c :: _ => Return c
  end.

(** [label in df.index] *)
Definition in_index (label : string) (df : DataFrame) : bool :=
  bool_decide (label ∈ df.*1).

Record Ticker : Type := {
  info : option (gmap string Qc);
  cashflow : option DataFrame;
  balance_sheet : option DataFrame
}.

(** The figures the data-retrieval half of the function binds before the
    calculations start. *)
Record FinancialFacts : Type := {
  free_cash_flow : Qc;
  market_cap : Qc;
  current_price : Qc;
  total_liabilities : Qc;
  cash_and_equivalents : Qc;
  shares_outstanding : Qc
}.

(** ** The valuation engine *)

Definition error_record (msg : string) : gmap string pyval :=
  {[ "Error Message" := VStr msg ]}.

(** [try: body except Exception as e: return {'Error Message': ...}] *)
Definition catch_all (body : outcome (gmap string pyval))
  : outcome (gmap string pyval) :=
  match body with
  | Return r => Return r
  | Raise e =>
      Return (error_record ("An unexpected error occurred: " +:+ str e))
  end.

(** Input value validation (lines 61-71): the first failing check raises. *)
Definition validate (discount_rate growth_rate_1_5 growth_rate_6_20
                     terminal_growth_rate : Qc) : outcome unit :=
  if negb (bool_decide (0 ≤ discount_rate) && bool_decide (discount_rate ≤ 1))
  then Raise (ValueError "Discount rate must be between 0 and 1.")
  else if negb (bool_decide (-1 ≤ growth_rate_1_5)
                && bool_decide (growth_rate_1_5 ≤ 2))
  then Raise (ValueError
                "Growth rate (1-5) is outside a reasonable range (-1 to 2).")
  else if negb (bool_decide (-1 ≤ growth_rate_6_20)
                && bool_decide (growth_rate_6_20 ≤ 2))
  then Raise (ValueError
                "Growth rate (6-20) is outside a reasonable range (-1 to 2).")
  else if negb (bool_decide (-1 ≤ terminal_growth_rate)
                && bool_decide (terminal_growth_rate ≤ 1))
  then Raise (ValueError
                "Terminal growth rate is outside a reasonable range (-1 to 1).")
  else if bool_decide (discount_rate ≤ terminal_growth_rate)
  then Raise (ValueError
                "Discount rate must be greater than terminal growth rate.")
  else Return ().

(** Data retrieval (lines 76-112).  [inl r] is an early [return r];
    [inr facts] falls through to the calculations.  [pd.isna(c)] is the
    match of a cell against [NaN].  Line 106 computes [net_debt] before
    the [isna] test of line 107; the subtraction of a NaN raises nothing,
    so the model tests first and subtracts in [calculations]. *)
Definition retrieve (ticker : string) (stock : Ticker)
  : outcome (gmap string pyval + FinancialFacts) :=
  if bool_decide (info stock = None) || bool_decide (info stock = Some ∅)
  then Return (inl (error_record ("Invalid ticker symbol: " +:+ ticker)))
  else
  let cashflow_statement := cashflow stock in
  let balance_sheet := balance_sheet stock in
  let info := info stock in
  match cashflow_statement with
  | None => Return (inl (error_record "Cash flow statement data unavailable."))
  | Some cashflow_statement =>
  if df_empty cashflow_statement
  then Return (inl (error_record "Cash flow statement data unavailable."))
  else
  match balance_sheet with
  | None => Return (inl (error_record "Balance sheet data unavailable."))
  | Some balance_sheet =>
  if df_empty balance_sheet
  then Return (inl (error_record "Balance sheet data unavailable."))
  else
  match info with
  | None => Return (inl (error_record "Stock info unavailable."))
  | Some info =>
  free_cash_flow ← loc cashflow_statement "Free Cash Flow" ≫= iloc0;
  match free_cash_flow with
  | NaN => Return (inl (error_record "Free Cash Flow data unavailable."))
  | Num free_cash_flow =>
  match info !! "marketCap" with
  | None => Return (inl (error_record "Market capitalization data unavailable."))
  | Some market_cap =>
  match info !! "currentPrice" with
  | None => Return (inl (error_record "Current price data unavailable."))
  | Some current_price =>
  total_liabilities ←
    (if in_index "Total Liabilities Net Minority Interest" balance_sheet
     then loc balance_sheet "Total Liabilities Net Minority Interest" ≫= iloc0
     else loc balance_sheet "Total Liabilities" ≫= iloc0);
  cash_and_equivalents ←
    loc balance_sheet "Cash And Cash Equivalents" ≫= iloc0;
  match total_liabilities, cash_and_equivalents with
  | Num total_liabilities, Num cash_and_equivalents =>
  match info !! "sharesOutstanding" with
  | None => Return (inl (error_record "Shares outstanding unavailable."))
  | Some shares_outstanding =>
      Return (inr {| free_cash_flow := free_cash_flow;
                     market_cap := market_cap;
                     current_price := current_price;
                     total_liabilities := total_liabilities;
                     cash_and_equivalents := cash_and_equivalents;
                     shares_outstanding := shares_outstanding |})
  end
  | _, _ => Return (inl (error_record "Net Debt data unavailable"))
  end end end end end end end.

(** The projection loop (lines 119-127), with its two accumulators. *)
Fixpoint projection_loop (free_cash_flow : float64)
    (discount_rate growth_rate_1_5 growth_rate_6_20 : Qc) (years : list Z)
    (projected_fcfs present_values : list float64)
  : outcome (list float64 * list float64) :=
  match years with
  | [] => Return (projected_fcfs, present_values)
  | year :: years =>
      let growth_rate :=
        if bool_decide (year ≤ 5)%Z then growth_rate_1_5 else growth_rate_6_20 in
      growth ← pow (1 + growth_rate) year;
      let projected_fcf := (free_cash_flow * Finite growth)%F in
      let projected_fcfs := projected_fcfs ++ [projected_fcf] in
      discount ← pow (1 + discount_rate) year;
      let present_value := (projected_fcf / Finite discount)%F in
      let present_values := present_values ++ [present_value] in
      projection_loop free_cash_flow discount_rate growth_rate_1_5
                      growth_rate_6_20 years projected_fcfs present_values
  end.

(** The dictionary of a successful valuation (lines 139-156). *)
Definition valuation_record (intrinsic_value_per_share current_price
    upside_downside free_cash_flow market_cap net_debt : float64)
    (projected_fcfs present_values : list float64)
    (terminal_value implied_growth_rate present_value_terminal_value
     enterprise_value equity_value shares_outstanding price_to_fcf : float64)
  : gmap string pyval :=
  <["Intrinsic Value per Share" := VNum intrinsic_value_per_share]>
  (<["Current Share Price" := VNum current_price]>
  (<["Upside/Downside" := VNum upside_downside]>
  (<["Free Cash Flow" := VNum free_cash_flow]>
  (<["Market Cap" := VNum market_cap]>
  (<["Net Debt" := VNum net_debt]>
  (<["Projected FCFs" := VList projected_fcfs]>
  (<["Present Values" := VList present_values]>
  (<["Terminal Value" := VNum terminal_value]>
  (<["Implied Growth Rate" := VNum implied_growth_rate]>
  (<["Present Value of Terminal Value" := VNum present_value_terminal_value]>
  (<["Enterprise Value" := VNum enterprise_value]>
  (<["Equity Value" := VNum equity_value]>
  (<["Shares Outstanding" := VNum shares_outstanding]>
  (<["Price to FCF (YoY)" := VNum price_to_fcf]>
  (<["Error Message" := VNone]> ∅))))))))))))))).

(** Calculations (lines 106, 116-156).  The three figures read from the
    statements are [numpy.float64] values, the three read from [info]
    and the rates are Python numbers; an operation between the two kinds
    is NumPy's. *)
Definition calculations (facts : FinancialFacts) (number_of_years : Z)
    (discount_rate growth_rate_1_5 growth_rate_6_20 terminal_growth_rate : Qc)
  : outcome (gmap string pyval) :=
  let free_cash_flow : float64 := free_cash_flow facts in
  let market_cap := market_cap facts in
  let current_price := current_price facts in
  let total_liabilities : float64 := total_liabilities facts in
  let cash_and_equivalents : float64 := cash_and_equivalents facts in
  let shares_outstanding := shares_outstanding facts in
  let net_debt := (total_liabilities - cash_and_equivalents)%F in
  '(projected_fcfs, present_values) ←
     projection_loop free_cash_flow discount_rate growth_rate_1_5
                     growth_rate_6_20 (range1 number_of_years) [] [];
  last_fcf ← last_item projected_fcfs;
  let terminal_value :=
    (last_fcf * (1 + terminal_growth_rate)%Qc
     / (discount_rate - terminal_growth_rate)%Qc)%F in
  discount ← pow (1 + discount_rate) number_of_years;
  let present_value_terminal_value := (terminal_value / Finite discount)%F in
  let sum_of_pvs := (sum present_values + present_value_terminal_value)%F in
  let enterprise_value := sum_of_pvs in
  let equity_value := (enterprise_value - net_debt)%F in
  let intrinsic_value_per_share := (equity_value / shares_outstanding)%F in
  let upside_downside :=
    ((intrinsic_value_per_share - current_price) / current_price)%F in
  let implied_growth_rate :=
    ((discount_rate - free_cash_flow / terminal_value)
     / (1 + free_cash_flow / terminal_value))%F in
  Return (valuation_record intrinsic_value_per_share current_price
            upside_downside free_cash_flow market_cap net_debt projected_fcfs
            present_values terminal_value implied_growth_rate
            present_value_terminal_value enterprise_value equity_value
            shares_outstanding (market_cap / free_cash_flow)%F).

Section Engine.

(** [yf.Ticker]: what the provider answers for a ticker symbol. *)
Variable yf_Ticker : string → Ticker.

Definition discounted_cash_flow (ticker : string) (number_of_years : Z)
    (discount_rate growth_rate_1_5 growth_rate_6_20
     terminal_growth_rate : Qc)
  : outcome (gmap string pyval) :=
  _ ← validate discount_rate growth_rate_1_5 growth_rate_6_20
               terminal_growth_rate;
  catch_all (
    let stock := yf_Ticker ticker in
    retrieved ← retrieve ticker stock;
    match retrieved with
    | inl early => Return early
    | inr facts =>
        calculations facts number_of_years discount_rate growth_rate_1_5
                     growth_rate_6_20 terminal_growth_rate
    end).

End Engine.

(** ** The sensitivity sweep *)

(** [for x in xs: body], threading the state the body updates *)
Fixpoint for_each {A S : Type} (body : A → S → outcome S) (xs : list A) (s : S)
  : outcome S :=
  match xs with
  | [] => Return s
  | x :: xs => s ← body x s; for_each body xs s
  end.

(** [d[key]] *)
Definition getitem (d : gmap string pyval) (key : string) : outcome pyval :=
  match d !! key with
  | Some v => Return v
  | None => Raise (KeyError key)
  end.

(** Truth value of a dictionary: non-empty *)
Definition truthy (d : gmap string pyval) : bool := negb (bool_decide (d = ∅)).

(** The module-level names [sensitivity_analysis] reads without receiving
    them as arguments: the horizon, and the record of the main valuation
    ([None] when the name is unbound). *)
Record Globals : Type := {
  number_of_years : Z;
  dcf_results : option (gmap string pyval)
}.

(** Lines 187-193, which sit in the body of the [except Exception]
    handler: they read both figures of the global [dcf_results], compare
    them and format them as numbers.  The two display calls themselves
    are outside the model. *)
Definition display_intrinsic_value (globals : Globals) : outcome unit :=
  match dcf_results globals with
  | None => Raise (NameError "dcf_results")
  | Some dcf_results =>
      intrinsic ← getitem dcf_results "Intrinsic Value per Share";
      price ← getitem dcf_results "Current Share Price";
      match intrinsic, price with
      | VNum _, VNum _ => Return ()
      | _, _ => Raise (TypeError "'<' or format not supported for these operands")
      end
  end.

Section Sweep.

Variable yf_Ticker : string → Ticker.
Variable globals : Globals.

(** One pass of the inner loop body (lines 171-193) on the row
    [results[g1_5]].  The row is the dictionary created at line 169; the
    body only ever reaches it through [results[g1_5]], so the model
    threads the row and stores it under [g1_5] in [sweep_row]. *)
Definition sweep_cell (ticker : string) (discount_rate terminal_growth_rate : Qc)
    (g1_5 g6_20 : Qc) (row : gmap Qc pyval) : outcome (gmap Qc pyval) :=
  let attempt : outcome (gmap Qc pyval) :=
    if bool_decide (g1_5 < g6_20) then
      let dcf_result := VStr "-" in
      Return row
    else
      dcf_result ← discounted_cash_flow yf_Ticker ticker
                      (number_of_years globals) discount_rate g1_5 g6_20
                      terminal_growth_rate;
      if truthy dcf_result
         && bool_decide (is_Some (dcf_result !! "Intrinsic Value per Share"))
      then
        value ← getitem dcf_result "Intrinsic Value per Share";
        Return (<[g6_20 := value]> row)
      else Return (<[g6_20 := VNone]> row)
  in
  match attempt with
  | Return row => Return row
  | Raise (ValueError _) => Return (<[g6_20 := VNone]> row)
  | Raise _ =>
      let row := <[g6_20 := VNone]> row in
      _ ← display_intrinsic_value globals;
      Return row
  end.

(** One pass of the outer loop body (lines 169-170). *)
Definition sweep_row (ticker : string) (discount_rate : Qc)
    (growth_rate_6_20_range : list Qc) (terminal_growth_rate : Qc)
    (g1_5 : Qc) (results : gmap Qc (gmap Qc pyval))
  : outcome (gmap Qc (gmap Qc pyval)) :=
  row ← for_each (sweep_cell ticker discount_rate terminal_growth_rate g1_5)
                 growth_rate_6_20_range ∅;
  Return (<[g1_5 := row]> results).

(** The function returns [pd.DataFrame(results)]; the model returns the
    nested dictionary the frame is built from (outer key: near-term
    rate, inner key: long-term rate), as a finite map.  A pair without
    an entry has no value in the frame either.  The order in which the
    frame lists its rows and columns is outside the model: the
    statements below speak of the entries of the table only. *)
Definition sensitivity_analysis (ticker : string) (discount_rate : Qc)
    (growth_rate_1_5_range growth_rate_6_20_range : list Qc)
    (terminal_growth_rate : Qc)
  : outcome (gmap Qc (gmap Qc pyval)) :=
  for_each (sweep_row ticker discount_rate growth_rate_6_20_range
                      terminal_growth_rate)
           growth_rate_1_5_range ∅.

End Sweep.

(** ** Styling of the displayed tables *)

(** [style_comparison] (lines 28-37); [''] is the empty string. *)
Definition style_comparison (value current_price : pyval) (safety_factor : Qc)
  : string :=
  match value, current_price with
  | VNum value, VNum current_price =>
      if np_less value current_price then "background-color: red"
      else if np_less (current_price * (1 + safety_factor)%Qc)%F value
      then "background-color: green"
      else EmptyString
  | _, _ => EmptyString
  end.

(** [style_up_downside] (lines 40-49).  The function reads two
    module-level names.  [safety_factor] is bound at line 210;
    [current_price] is bound nowhere in the module, so its binding is an
    argument here, [None] when the name is unbound.  The second
    [isinstance] is evaluated only when the first one holds. *)
Definition style_up_downside (current_price : option pyval)
    (safety_factor : Qc) (value : pyval) : outcome string :=
  match value with
  | VNum value =>
      match current_price with
      | None => Raise (NameError "current_price")
      | Some (VNum _) =>
          if np_less value 0 then Return "background-color: red"
          else if np_less safety_factor value
          then Return "background-color: green"
          else Return EmptyString
      | Some _ => Return EmptyString
      end
  | _ => Return EmptyString
  end.

(** * Vocabulary of the statements *)

(** Decimal literal [n/d]. *)
Definition dec (n : Z) (d : positive) : Qc := Q2Qc (n # d).

(** The rates that pass [validate]. *)
Definition valid_rates (discount_rate growth_rate_1_5 growth_rate_6_20
                        terminal_growth_rate : Qc) : Prop :=
  0 ≤ discount_rate ≤ 1 ∧ -1 ≤ growth_rate_1_5 ≤ 2 ∧
  -1 ≤ growth_rate_6_20 ≤ 2 ∧ -1 ≤ terminal_growth_rate ≤ 1 ∧
  terminal_growth_rate < discount_rate.

Global Instance valid_rates_dec dr g1 g2 tgr :
  Decision (valid_rates dr g1 g2 tgr).
Proof. unfold valid_rates. apply _. Defined.

(** The body of the [try] block of [discounted_cash_flow]. *)
Definition try_block (yf_Ticker : string → Ticker) (ticker : string) (N : Z)
    (dr g1 g2 tgr : Qc) : outcome (gmap string pyval) :=
  retrieved ← retrieve ticker (yf_Ticker ticker);
  match retrieved with
  | inl early => Return early
  | inr facts => calculations facts N dr g1 g2 tgr
  end.

(** ** One year's projection in closed form *)

Definition rate_of_year (g1 g2 : Qc) (year : Z) : Qc :=
  if bool_decide (year ≤ 5)%Z then g1 else g2.
Definition projected (fcf g1 g2 : Qc) (year : Z) : Qc :=
  fcf * (1 + rate_of_year g1 g2 year) ^ Z.to_nat year.
Definition discounted (fcf dr g1 g2 : Qc) (year : Z) : Qc :=
  projected fcf g1 g2 year / (1 + dr) ^ Z.to_nat year.

(** ** The valuation in closed form *)

(** The sum of a list of rationals, left to right from 0. *)
Definition Qcsum (l : list Qc) : Qc := foldl Qcplus 0 l.

Section ClosedForms.

Variables (facts : FinancialFacts) (N : Z) (dr g1 g2 tgr : Qc).

Definition fcfs_of : list Qc :=
  projected (free_cash_flow facts) g1 g2 <$> range1 N.
Definition pvs_of : list Qc :=
  discounted (free_cash_flow facts) dr g1 g2 <$> range1 N.
Definition terminal_value_of : Qc :=
  projected (free_cash_flow facts) g1 g2 N * (1 + tgr) / (dr - tgr).
Definition pv_terminal_of : Qc := terminal_value_of / (1 + dr) ^ Z.to_nat N.
Definition enterprise_value_of : Qc := Qcsum pvs_of + pv_terminal_of.
Definition net_debt_of : Qc :=
  total_liabilities facts - cash_and_equivalents facts.
Definition equity_value_of : Qc := enterprise_value_of - net_debt_of.

(** The four quotients whose divisor is not bounded away from zero. *)
Definition intrinsic_value_of : float64 :=
  (equity_value_of / shares_outstanding facts)%F.
Definition upside_downside_of : float64 :=
  ((intrinsic_value_of - current_price facts) / current_price facts)%F.
Definition implied_growth_of : float64 :=
  ((dr - free_cash_flow facts / terminal_value_of)
   / (1 + free_cash_flow facts / terminal_value_of))%F.
Definition price_to_fcf_of : float64 :=
  (market_cap facts / free_cash_flow facts)%F.

Definition valuation_of : gmap string pyval :=
  valuation_record intrinsic_value_of (current_price facts)
    upside_downside_of (free_cash_flow facts) (market_cap facts) net_debt_of
    (Finite <$> fcfs_of) (Finite <$> pvs_of) terminal_value_of
    implied_growth_of pv_terminal_of enterprise_value_of equity_value_of
    (shares_outstanding facts) price_to_fcf_of.

End ClosedForms.

(** ** Finite values and the range of a double *)

Definition is_finite (x : float64) : Prop :=
  match x with Finite _ => True | _ => False end.

Global Instance is_finite_dec x : Decision (is_finite x).
Proof. destruct x; simpl; apply _. Defined.

(** The least magnitude that no longer rounds to a double,
    [2^1024 - 2^970]. *)
Definition double_range : Qc := dec (2 ^ 1024 - 2 ^ 970) 1.

(** The powers that a valuation over [N] years takes stay within the
    range of a double, so that none of them raises [OverflowError] in
    Python. *)
Definition powers_in_range (N : Z) (dr g1 g2 : Qc) : Prop :=
  Forall (λ year : Z,
            (1 + rate_of_year g1 g2 year) ^ Z.to_nat year < double_range
            ∧ (1 + dr) ^ Z.to_nat year < double_range)
         (range1 N).

Global Instance powers_in_range_dec N dr g1 g2 :
  Decision (powers_in_range N dr g1 g2).
Proof. unfold powers_in_range. apply _. Defined.


(** ** The sweep in closed form *)

Section SweepForms.

Variable yf_Ticker : string → Ticker.
Variable globals : Globals.
Variables (ticker : string) (dr tgr : Qc).

(** What an evaluated cell holds: the intrinsic value of its own
    valuation, or [None]. *)
Definition cell_value (g1 g2 : Qc) : pyval :=
  match discounted_cash_flow yf_Ticker ticker (number_of_years globals)
          dr g1 g2 tgr with
  | Return r => default VNone (r !! "Intrinsic Value per Share")
  | Raise _ => VNone
  end.

Definition fill_cell (g1 g2 : Qc) (row : gmap Qc pyval) : gmap Qc pyval :=
  if bool_decide (g1 < g2) then row else <[g2 := cell_value g1 g2]> row.

Definition fill_row (g1 : Qc) (range2 : list Qc) (row : gmap Qc pyval)
  : gmap Qc pyval :=
  foldl (λ row g2, fill_cell g1 g2 row) row range2.

Definition fill_table (range1 range2 : list Qc)
    (results : gmap Qc (gmap Qc pyval)) : gmap Qc (gmap Qc pyval) :=
  foldl (λ results g1, <[g1 := fill_row g1 range2 ∅]> results) results range1.

End SweepForms.

(** ** Missing figures *)

Inductive field : Type :=
  | FreeCashFlow | MarketCap | CurrentPrice
  | TotalLiabilities | CashAndEquivalents | SharesOutstanding.

Definition figure (c : cell) : option Qc :=
  match c with NaN => None | Num q => Some q end.

(** The six figures as the provider holds them, [None] for one that is
    missing (a NaN cell of a statement, no entry in [info]).  Defined when
    the three sources are there, non-empty, and have the rows the code
    reads. *)
Definition held (stock : Ticker) : option (field → option Qc) :=
  match info stock, cashflow stock, balance_sheet stock with
  | Some i, Some cf, Some bs =>
      if bool_decide (i = ∅) || df_empty cf || df_empty bs then None
      else
        match loc cf "Free Cash Flow" ≫= iloc0,
              (if in_index "Total Liabilities Net Minority Interest" bs
               then loc bs "Total Liabilities Net Minority Interest" ≫= iloc0
               else loc bs "Total Liabilities" ≫= iloc0),
              loc bs "Cash And Cash Equivalents" ≫= iloc0 with
        | Return fcf, Return tl, Return cash =>
            Some (λ f, match f with
                       | FreeCashFlow => figure fcf
                       | MarketCap => i !! "marketCap"
                       | CurrentPrice => i !! "currentPrice"
                       | TotalLiabilities => figure tl
                       | CashAndEquivalents => figure cash
                       | SharesOutstanding => i !! "sharesOutstanding"
                       end)
        | _, _, _ => None
        end
  | _, _, _ => None
  end.

Definition missing_exactly (stock : Ticker) (f : field) : Prop :=
  ∃ h, held stock = Some h ∧ ∀ f', h f' = None ↔ f' = f.

(** The message of the check that finds the figure missing. *)
Definition missing_message (f : field) : string :=
  match f with
  | FreeCashFlow => "Free Cash Flow data unavailable."
  | MarketCap => "Market capitalization data unavailable."
  | CurrentPrice => "Current price data unavailable."
  | TotalLiabilities | CashAndEquivalents => "Net Debt data unavailable"
  | SharesOutstanding => "Shares outstanding unavailable."
  end.

(** ** Sample provider answers *)

Definition set_figure (key : string) (value : option Qc) (m : gmap string Qc)
  : gmap string Qc :=
  match value with Some v => <[key := v]> m | None => m end.

Definition sample_ticker (fcf tl cash : cell) (mc cp so : option Qc) : Ticker :=
  {| info := Some (set_figure "marketCap" mc
                  (set_figure "currentPrice" cp
                  (set_figure "sharesOutstanding" so
                     {[ "volume" := dec 52000000 1 ]})));
     cashflow := Some [("Free Cash Flow", [fcf; NaN]);
                       ("Capital Expenditure", [NaN; NaN])];
     balance_sheet :=
       Some [("Total Liabilities Net Minority Interest", [tl; NaN]);
             ("Cash And Cash Equivalents", [cash; NaN])] |}.

(** The end-to-end scenario: FCF 5e9, liabilities 4e10, cash 1e10, 1e9
    shares, market cap 2e11, price 150. *)
Definition acme : Ticker :=
  sample_ticker (Num (dec 5000000000 1)) (Num (dec 40000000000 1))
    (Num (dec 10000000000 1)) (Some (dec 200000000000 1)) (Some (dec 150 1))
    (Some (dec 1000000000 1)).
Definition acme_facts : FinancialFacts :=
  {| free_cash_flow := dec 5000000000 1; market_cap := dec 200000000000 1;
     current_price := dec 150 1; total_liabilities := dec 40000000000 1;
     cash_and_equivalents := dec 10000000000 1;
     shares_outstanding := dec 1000000000 1 |}.

(** A small firm, its free cash flow left open. *)
Definition small_facts (fcf : Qc) : FinancialFacts :=
  {| free_cash_flow := fcf; market_cap := dec 20000000 1;
     current_price := dec 15 1; total_liabilities := dec 4000000 1;
     cash_and_equivalents := dec 1000000 1;
     shares_outstanding := dec 1000000 1 |}.
Definition small_co (fcf : cell) : Ticker :=
  sample_ticker fcf (Num (dec 4000000 1)) (Num (dec 1000000 1))
    (Some (dec 20000000 1)) (Some (dec 15 1)) (Some (dec 1000000 1)).

(** The small firm with one figure missing. *)
Definition no_liabilities_co : Ticker :=
  sample_ticker (Num (dec 1000000 1)) NaN (Num (dec 1000000 1))
    (Some (dec 20000000 1)) (Some (dec 15 1)) (Some (dec 1000000 1)).
Definition no_cash_co : Ticker :=
  sample_ticker (Num (dec 1000000 1)) (Num (dec 4000000 1)) NaN
    (Some (dec 20000000 1)) (Some (dec 15 1)) (Some (dec 1000000 1)).
Definition no_price_co : Ticker :=
  sample_ticker (Num (dec 1000000 1)) (Num (dec 4000000 1))
    (Num (dec 1000000 1)) (Some (dec 20000000 1)) None (Some (dec 1000000 1)).

(** The module-level names during a sweep over a ten-year horizon, the
    main valuation not yet bound. *)
Definition sample_globals : Globals :=
  {| number_of_years := 10; dcf_results := None |}.

(** * Vocabulary of the further properties *)

(** ** The sources of the figures *)

(** [df is None or df.empty] *)
Definition unavailable (df : option DataFrame) : bool :=
  match df with None => true | Some df => df_empty df end.

(** The three sources are there: [info] non-empty, both statements
    non-empty. *)
Definition sources (stock : Ticker) (i : gmap string Qc) (cf bs : DataFrame)
  : Prop :=
  info stock = Some i ∧ i ≠ ∅ ∧
  cashflow stock = Some cf ∧ df_empty cf = false ∧
  balance_sheet stock = Some bs ∧ df_empty bs = false.

(** The cell line 104 reads for the total liabilities. *)
Definition liabilities_cell (bs : DataFrame) : outcome cell :=
  if in_index "Total Liabilities Net Minority Interest" bs
  then loc bs "Total Liabilities Net Minority Interest" ≫= iloc0
  else loc bs "Total Liabilities" ≫= iloc0.

(** The frame cut down to its first column. *)
Definition first_column (df : DataFrame) : DataFrame :=
  (λ row : string * Series, (row.1, take 1 row.2)) <$> df.

Definition latest_only (stock : Ticker) : Ticker :=
  {| info := info stock;
     cashflow := first_column <$> cashflow stock;
     balance_sheet := first_column <$> balance_sheet stock |}.

(** ** Sample answers with a source or a row missing *)

Definition small_info : gmap string Qc :=
  set_figure "marketCap" (Some (dec 20000000 1))
    (set_figure "currentPrice" (Some (dec 15 1))
       (set_figure "sharesOutstanding" (Some (dec 1000000 1))
          {[ "volume" := dec 52000000 1 ]})).
Definition small_cashflow : DataFrame :=
  [("Free Cash Flow", [Num (dec 1000000 1); NaN]);
   ("Capital Expenditure", [NaN; NaN])].
Definition small_balance : DataFrame :=
  [("Total Liabilities Net Minority Interest", [Num (dec 4000000 1); NaN]);
   ("Cash And Cash Equivalents", [Num (dec 1000000 1); NaN])].

Definition unknown_co : Ticker :=
  {| info := Some ∅; cashflow := Some small_cashflow;
     balance_sheet := Some small_balance |}.
Definition no_cashflow_co : Ticker :=
  {| info := Some small_info; cashflow := Some [];
     balance_sheet := Some small_balance |}.
Definition capex_only : DataFrame := [("Capital Expenditure", [NaN; NaN])].
Definition no_fcf_row_co : Ticker :=
  {| info := Some small_info; cashflow := Some capex_only;
     balance_sheet := Some small_balance |}.
(** Liabilities under the second label only. *)
Definition fallback_balance : DataFrame :=
  [("Total Liabilities", [Num (dec 4000000 1); NaN]);
   ("Cash And Cash Equivalents", [Num (dec 1000000 1); NaN])].
Definition fallback_co : Ticker :=
  {| info := Some small_info; cashflow := Some small_cashflow;
     balance_sheet := Some fallback_balance |}.
(** Liabilities NaN under the first label, a figure under the second. *)
Definition nan_primary_balance : DataFrame :=
  [("Total Liabilities Net Minority Interest", [NaN; NaN]);
   ("Total Liabilities", [Num (dec 4000000 1); NaN]);
   ("Cash And Cash Equivalents", [Num (dec 1000000 1); NaN])].
Definition nan_primary_co : Ticker :=
  {| info := Some small_info; cashflow := Some small_cashflow;
     balance_sheet := Some nan_primary_balance |}.

(** * Lemmas *)

Ltac by_computation := apply (bool_decide_unpack _); vm_compute; exact I.

Arguments truediv : simpl never.

(** ** Outcomes *)

Lemma bind_Return_inv {A B} (m : outcome A) (f : A → outcome B) (b : B) :
  m ≫= f = Return b → ∃ a, m = Return a ∧ f a = Return b.
Proof. destruct m; simpl; [eauto | discriminate]. Qed.

Ltac invert_binds :=
  repeat (first
    [ match goal with
      | H : _ ≫= _ = Return _ |- _ =>
          apply bind_Return_inv in H as (? & ? & H)
      end
    | case_match ];
    simplify_eq/=).

Lemma catch_all_returns body : ∃ r, catch_all body = Return r.
Proof. destruct body; simpl; eauto. Qed.

(** ** Arithmetic *)

Lemma Qcpower_pos_strict (x : Qc) (n : nat) : 0 < x → 0 < x ^ n.
Proof.
  intros Hx. induction n as [|n IH]; simpl; [done|].
  by apply Qcmult_pos_pos.
Qed.

Lemma discount_factor_nonzero (dr : Qc) (n : nat) : 0 ≤ dr → (1 + dr) ^ n ≠ 0.
Proof.
  intros Hdr. apply not_eq_sym, Qclt_not_eq, Qcpower_pos_strict.
  by apply Qcplus_pos_nonneg.
Qed.

Lemma truediv_finite (a b : Qc) :
  b ≠ 0 → (Finite a / Finite b)%F = Finite (a / b).
Proof. intros H. unfold truediv. by rewrite decide_False. Qed.

Lemma truediv_by_zero (a : Qc) :
  (Finite a / Finite 0)%F
  = if decide (a = 0) then NotANumber else Infinity (negative a).
Proof. unfold truediv. by rewrite decide_True. Qed.

Lemma truediv_finite_iff (a b : Qc) :
  is_finite (Finite a / Finite b)%F ↔ b ≠ 0.
Proof.
  unfold truediv. destruct (decide (b = 0)) as [->|Hb]; simpl.
  - destruct (decide (a = 0)); simpl; tauto.
  - tauto.
Qed.

Lemma sum_acc_finite (acc : Qc) (l : list Qc) :
  foldl np_add (Finite acc) (Finite <$> l) = Finite (foldl Qcplus acc l).
Proof.
  revert acc. induction l as [|x l IH]; intros acc; simpl; [done|].
  apply IH.
Qed.

Lemma sum_finite (l : list Qc) : sum (Finite <$> l) = Finite (Qcsum l).
Proof. apply sum_acc_finite. Qed.

Lemma pow_nonneg (x : Qc) (n : Z) : (0 ≤ n)%Z → pow x n = Return (x ^ Z.to_nat n).
Proof. intros H. unfold pow. by rewrite decide_True. Qed.

(** ** Validation *)

Lemma in_range_true (lo x hi : Qc) :
  lo ≤ x ≤ hi → negb (bool_decide (lo ≤ x) && bool_decide (x ≤ hi)) = false.
Proof. intros [? ?]. by rewrite !bool_decide_eq_true_2. Qed.

Lemma in_range_false (lo x hi : Qc) :
  ¬ (lo ≤ x ≤ hi) → negb (bool_decide (lo ≤ x) && bool_decide (x ≤ hi)) = true.
Proof.
  intros H. destruct (decide (lo ≤ x)), (decide (x ≤ hi));
    rewrite ?bool_decide_eq_true_2, ?bool_decide_eq_false_2 by done;
    try done.
  by destruct H.
Qed.

Lemma validate_valid dr g1 g2 tgr :
  valid_rates dr g1 g2 tgr → validate dr g1 g2 tgr = Return ().
Proof.
  intros (Hd & H1 & H2 & Ht & Hlt). unfold validate.
  rewrite !in_range_true by done.
  by rewrite bool_decide_eq_false_2 by by apply Qclt_nge.
Qed.

Lemma validate_invalid dr g1 g2 tgr :
  ¬ valid_rates dr g1 g2 tgr →
  ∃ msg, validate dr g1 g2 tgr = Raise (ValueError msg).
Proof.
  intros H. unfold validate.
  destruct (decide (0 ≤ dr ≤ 1));
    [rewrite in_range_true by done | rewrite in_range_false by done; eauto].
  destruct (decide (-1 ≤ g1 ≤ 2));
    [rewrite in_range_true by done | rewrite in_range_false by done; eauto].
  destruct (decide (-1 ≤ g2 ≤ 2));
    [rewrite in_range_true by done | rewrite in_range_false by done; eauto].
  destruct (decide (-1 ≤ tgr ≤ 1));
    [rewrite in_range_true by done | rewrite in_range_false by done; eauto].
  case_bool_decide; [eauto|].
  destruct H. repeat split; try tauto. by apply Qclt_nge.
Qed.

(** ** The projection loop *)

Lemma projection_loop_total (fcf : Qc) dr g1 g2 years acc1 acc2 :
  0 ≤ dr → Forall (λ y, 0 ≤ y)%Z years →
  projection_loop fcf dr g1 g2 years acc1 acc2
  = Return (acc1 ++ (Finite <$> (projected fcf g1 g2 <$> years)),
            acc2 ++ (Finite <$> (discounted fcf dr g1 g2 <$> years))).
Proof.
  intros Hdr Hy. revert acc1 acc2.
  induction Hy as [|y years Hy0 _ IH]; intros acc1 acc2; simpl.
  - by rewrite !app_nil_r.
  - rewrite !pow_nonneg by done. simpl.
    rewrite truediv_finite by by apply discount_factor_nonzero.
    rewrite IH. by rewrite <-!app_assoc.
Qed.

Lemma range1_nonneg N : Forall (λ y, 0 ≤ y)%Z (range1 N).
Proof.
  unfold range1. apply Forall_fmap, Forall_forall. intros i _. simpl. lia.
Qed.


Lemma range1_lookup N (i : nat) :
  (i < Z.to_nat N)%nat → range1 N !! i = Some (Z.of_nat (S i)).
Proof.
  intros Hi. unfold range1. rewrite list_lookup_fmap, lookup_seq_lt by done.
  done.
Qed.

Lemma range1_nonpos N : (N ≤ 0)%Z → range1 N = [].
Proof. intros H. unfold range1. by replace (Z.to_nat N) with 0%nat by lia. Qed.

Lemma range1_last N : (1 ≤ N)%Z → list.last (range1 N) = Some N.
Proof.
  intros H. unfold range1.
  replace (Z.to_nat N) with (S (Z.to_nat (N - 1))) by lia.
  rewrite seq_S, fmap_app. simpl. rewrite last_snoc. f_equal. lia.
Qed.

Lemma projected_lookup fcf g1 g2 N (n : nat) :
  (1 ≤ n)%nat → (Z.of_nat n ≤ N)%Z →
  (projected fcf g1 g2 <$> range1 N) !! (n - 1)%nat
  = Some (fcf * (1 + (if bool_decide (n ≤ 5)%nat then g1 else g2)) ^ n).
Proof.
  intros H1 HN. rewrite list_lookup_fmap, range1_lookup by lia. simpl.
  unfold projected, rate_of_year.
  replace (Z.of_nat (S (n - 1))) with (Z.of_nat n) by lia.
  rewrite Nat2Z.id. do 3 f_equal.
  repeat case_bool_decide; (done || lia).
Qed.


(** ** The calculations *)

Section CalculationFacts.

Variables (facts : FinancialFacts) (N : Z) (dr g1 g2 tgr : Qc).
Hypothesis Hvalid : valid_rates dr g1 g2 tgr.

Lemma last_fcfs_of : (1 ≤ N)%Z →
  list.last (Finite <$> fcfs_of facts N g1 g2)
  = Some (Finite (projected (free_cash_flow facts) g1 g2 N)).
Proof.
  intros H. unfold fcfs_of. by rewrite !fmap_last, range1_last.
Qed.

Lemma rate_gap_nonzero : dr - tgr ≠ 0.
Proof.
  destruct Hvalid as (_ & _ & _ & _ & Hlt).
  apply not_eq_sym, Qclt_not_eq. by apply Qclt_minus_iff in Hlt.
Qed.

(** With a horizon of at least one the calculations return the
    closed-form record, whatever the figures. *)
Lemma calculations_from_year_one :
  (1 ≤ N)%Z →
  calculations facts N dr g1 g2 tgr
  = Return (valuation_of facts N dr g1 g2 tgr).
Proof.
  intros HN. pose proof Hvalid as ((Hdr & _) & _).
  unfold valuation_of, calculations.
  rewrite projection_loop_total by auto using range1_nonneg.
  cbn [app mbind outcome_bind].
  fold (fcfs_of facts N g1 g2) (pvs_of facts N dr g1 g2).
  unfold last_item. rewrite last_fcfs_of by done.
  cbn [mbind outcome_bind].
  rewrite pow_nonneg by lia. cbn [mbind outcome_bind].
  rewrite sum_finite.
  cbn [np_multiply np_subtract np_add np_negative].
  rewrite (truediv_finite _ _ rate_gap_nonzero).
  fold (terminal_value_of facts N dr g1 g2 tgr).
  rewrite (truediv_finite (terminal_value_of facts N dr g1 g2 tgr)
             ((1 + dr) ^ Z.to_nat N))
    by by apply discount_factor_nonzero.
  reflexivity.
Qed.

Lemma calculations_nonpositive_horizon :
  (N ≤ 0)%Z →
  calculations facts N dr g1 g2 tgr
  = Raise (IndexError "list index out of range").
Proof.
  intros HN. pose proof Hvalid as ((Hdr & _) & _). unfold calculations.
  rewrite projection_loop_total by auto using range1_nonneg.
  by rewrite range1_nonpos.
Qed.

Lemma calculations_cases :
  ((1 ≤ N)%Z ∧
   calculations facts N dr g1 g2 tgr
   = Return (valuation_of facts N dr g1 g2 tgr))
  ∨ ((N ≤ 0)%Z ∧
     calculations facts N dr g1 g2 tgr
     = Raise (IndexError "list index out of range")).
Proof.
  destruct (decide (1 ≤ N)%Z) as [HN|HN].
  - left. split; [done|]. by apply calculations_from_year_one.
  - right. split; [lia|]. apply calculations_nonpositive_horizon. lia.
Qed.

Local Abbreviation r := (valuation_of facts N dr g1 g2 tgr).

Lemma valuation_of_lookups :
  r !! "Intrinsic Value per Share"
    = Some (VNum (intrinsic_value_of facts N dr g1 g2 tgr)) ∧
  r !! "Current Share Price" = Some (VNum (current_price facts)) ∧
  r !! "Upside/Downside"
    = Some (VNum (upside_downside_of facts N dr g1 g2 tgr)) ∧
  r !! "Free Cash Flow" = Some (VNum (free_cash_flow facts)) ∧
  r !! "Market Cap" = Some (VNum (market_cap facts)) ∧
  r !! "Net Debt" = Some (VNum (net_debt_of facts)) ∧
  r !! "Projected FCFs" = Some (VList (Finite <$> fcfs_of facts N g1 g2)) ∧
  r !! "Present Values" = Some (VList (Finite <$> pvs_of facts N dr g1 g2)) ∧
  r !! "Terminal Value" = Some (VNum (terminal_value_of facts N dr g1 g2 tgr)) ∧
  r !! "Implied Growth Rate"
    = Some (VNum (implied_growth_of facts N dr g1 g2 tgr)) ∧
  r !! "Present Value of Terminal Value"
    = Some (VNum (pv_terminal_of facts N dr g1 g2 tgr)) ∧
  r !! "Enterprise Value"
    = Some (VNum (enterprise_value_of facts N dr g1 g2 tgr)) ∧
  r !! "Equity Value" = Some (VNum (equity_value_of facts N dr g1 g2 tgr)) ∧
  r !! "Shares Outstanding" = Some (VNum (shares_outstanding facts)) ∧
  r !! "Price to FCF (YoY)" = Some (VNum (price_to_fcf_of facts)) ∧
  r !! "Error Message" = Some VNone.
Proof. split_and!; reflexivity. Qed.

End CalculationFacts.

(** ** Shape of the returned records *)



Lemma error_record_message msg :
  error_record msg !! "Error Message" = Some (VStr msg).
Proof. unfold error_record. by rewrite lookup_singleton_eq. Qed.

Lemma error_record_other msg key :
  key ≠ "Error Message" → error_record msg !! key = None.
Proof. intros H. unfold error_record. by rewrite lookup_singleton_ne. Qed.

Lemma retrieve_early ticker stock early :
  retrieve ticker stock = Return (inl early) → ∃ msg, early = error_record msg.
Proof.
  unfold retrieve. intros H.
  invert_binds; eauto.
Qed.

(** ** Case analysis of one valuation *)

Section EngineCases.

Variable yf_Ticker : string → Ticker.
Variables (ticker : string) (N : Z) (dr g1 g2 tgr : Qc).

Local Abbreviation dcf :=
  (discounted_cash_flow yf_Ticker ticker N dr g1 g2 tgr).

Lemma discounted_cash_flow_valid :
  valid_rates dr g1 g2 tgr →
  dcf = catch_all (try_block yf_Ticker ticker N dr g1 g2 tgr).
Proof.
  intros H. unfold discounted_cash_flow. by rewrite validate_valid.
Qed.

Lemma discounted_cash_flow_with_facts facts :
  valid_rates dr g1 g2 tgr →
  retrieve ticker (yf_Ticker ticker) = Return (inr facts) →
  dcf = catch_all (calculations facts N dr g1 g2 tgr).
Proof.
  intros Hv Hr. rewrite discounted_cash_flow_valid by done.
  unfold try_block. by rewrite Hr.
Qed.

Lemma discounted_cash_flow_early early :
  valid_rates dr g1 g2 tgr →
  retrieve ticker (yf_Ticker ticker) = Return (inl early) →
  dcf = Return early.
Proof.
  intros Hv Hr. rewrite discounted_cash_flow_valid by done.
  unfold try_block. by rewrite Hr.
Qed.

Lemma discounted_cash_flow_raises e :
  dcf = Raise e → ¬ valid_rates dr g1 g2 tgr ∧ ∃ msg, e = ValueError msg.
Proof.
  intros H. destruct (decide (valid_rates dr g1 g2 tgr)) as [Hv|Hv].
  - rewrite discounted_cash_flow_valid in H by done.
    by destruct (catch_all_returns (try_block yf_Ticker ticker N dr g1 g2 tgr))
      as [r Hr]; rewrite Hr in H.
  - split; [done|]. destruct (validate_invalid _ _ _ _ Hv) as [msg Hmsg].
    unfold discounted_cash_flow in H. rewrite Hmsg in H. simpl in H.
    exists msg. congruence.
Qed.

Lemma discounted_cash_flow_Return_inv r :
  dcf = Return r →
  valid_rates dr g1 g2 tgr ∧
  ((∃ facts, retrieve ticker (yf_Ticker ticker) = Return (inr facts) ∧
             (1 ≤ N)%Z ∧
             r = valuation_of facts N dr g1 g2 tgr)
   ∨ ∃ msg, r = error_record msg).
Proof.
  intros H. destruct (decide (valid_rates dr g1 g2 tgr)) as [Hv|Hv]; last first.
  { destruct (validate_invalid _ _ _ _ Hv) as [msg Hmsg].
    unfold discounted_cash_flow in H. by rewrite Hmsg in H. }
  split; [done|].
  rewrite discounted_cash_flow_valid in H by done. unfold try_block in H.
  destruct (retrieve ticker (yf_Ticker ticker)) as [[early|facts]|e] eqn:Hr;
    simpl in H.
  - apply retrieve_early in Hr as [msg ->]. right. exists msg. congruence.
  - destruct (calculations_cases facts N dr g1 g2 tgr Hv)
      as [[HN Heq]|[_ Heq]]; rewrite Heq in H; simpl in H.
    + left. exists facts. split_and!; [done..|congruence].
    + right. eexists. by injection H as <-.
  - right. eexists. by injection H as <-.
Qed.

Lemma discounted_cash_flow_success facts :
  valid_rates dr g1 g2 tgr →
  retrieve ticker (yf_Ticker ticker) = Return (inr facts) →
  (1 ≤ N)%Z →
  dcf = Return (valuation_of facts N dr g1 g2 tgr).
Proof.
  intros Hv Hr HN. rewrite (discounted_cash_flow_with_facts facts) by done.
  by rewrite (calculations_from_year_one facts N dr g1 g2 tgr Hv HN).
Qed.

Lemma discounted_cash_flow_success_inv r :
  dcf = Return r → r !! "Error Message" = Some VNone →
  valid_rates dr g1 g2 tgr ∧
  ∃ facts, retrieve ticker (yf_Ticker ticker) = Return (inr facts) ∧
           (1 ≤ N)%Z ∧
           r = valuation_of facts N dr g1 g2 tgr.
Proof.
  intros H Hok.
  destruct (discounted_cash_flow_Return_inv r H) as [Hv [?|[msg ->]]];
    [done|].
  by rewrite error_record_message in Hok.
Qed.

End EngineCases.

(** ** The sweep *)

Section SweepFacts.

Variable yf_Ticker : string → Ticker.
Variable globals : Globals.
Variables (ticker : string) (dr tgr : Qc).

Lemma sweep_cell_fill g1 g2 row :
  sweep_cell yf_Ticker globals ticker dr tgr g1 g2 row
  = Return (fill_cell yf_Ticker globals ticker dr tgr g1 g2 row).
Proof.
  unfold sweep_cell, fill_cell, cell_value.
  case_bool_decide; [done|].
  destruct (discounted_cash_flow _ _ _ _ _ _ _) as [r|e] eqn:Hdcf; simpl.
  - unfold truthy, getitem.
    destruct (r !! "Intrinsic Value per Share") as [v|] eqn:Hv; simpl.
    + rewrite bool_decide_eq_false_2; [done|].
      intros ->. by rewrite lookup_empty in Hv.
    + by rewrite andb_false_r.
  - by apply discounted_cash_flow_raises in Hdcf as [_ [msg ->]].
Qed.

Lemma for_each_sweep_cell g1 range2 row :
  for_each (sweep_cell yf_Ticker globals ticker dr tgr g1) range2 row
  = Return (fill_row yf_Ticker globals ticker dr tgr g1 range2 row).
Proof.
  revert row. induction range2 as [|g2 range2 IH]; intros row; simpl; [done|].
  rewrite sweep_cell_fill. simpl. by rewrite IH.
Qed.

Lemma sweep_row_fill range2 g1 results :
  sweep_row yf_Ticker globals ticker dr range2 tgr g1 results
  = Return (<[g1 := fill_row yf_Ticker globals ticker dr tgr g1 range2 ∅]>
              results).
Proof. unfold sweep_row. by rewrite for_each_sweep_cell. Qed.

Lemma sensitivity_analysis_fill range1 range2 :
  sensitivity_analysis yf_Ticker globals ticker dr range1 range2 tgr
  = Return (fill_table yf_Ticker globals ticker dr tgr range1 range2 ∅).
Proof.
  unfold sensitivity_analysis, fill_table.
  generalize (∅ : gmap Qc (gmap Qc pyval)).
  induction range1 as [|g1 range1 IH]; intros results; [done|].
  cbn [for_each foldl]. rewrite sweep_row_fill. simpl. by rewrite IH.
Qed.

Lemma fill_row_cons g1 g range2 row :
  fill_row yf_Ticker globals ticker dr tgr g1 (g :: range2) row
  = fill_row yf_Ticker globals ticker dr tgr g1 range2
      (fill_cell yf_Ticker globals ticker dr tgr g1 g row).
Proof. reflexivity. Qed.

Lemma fill_table_cons g range1 range2 results :
  fill_table yf_Ticker globals ticker dr tgr (g :: range1) range2 results
  = fill_table yf_Ticker globals ticker dr tgr range1 range2
      (<[g := fill_row yf_Ticker globals ticker dr tgr g range2 ∅]> results).
Proof. reflexivity. Qed.

Lemma fill_row_untouched g1 range2 row g2 :
  g2 ∉ range2 ∨ g1 < g2 →
  fill_row yf_Ticker globals ticker dr tgr g1 range2 row !! g2 = row !! g2.
Proof.
  intros H. revert row.
  induction range2 as [|g range2 IH]; intros row; [done|].
  rewrite fill_row_cons, IH.
  - unfold fill_cell. case_bool_decide as Hlt; [done|].
    apply lookup_insert_ne. intros ->.
    destruct H as [H|H]; [|done]. apply H. by left.
  - destruct H as [H|H]; [left|by right].
    intros Hin. apply H. by right.
Qed.

Lemma fill_row_evaluated g1 range2 row g2 :
  g2 ∈ range2 → ¬ g1 < g2 →
  fill_row yf_Ticker globals ticker dr tgr g1 range2 row !! g2
  = Some (cell_value yf_Ticker globals ticker dr tgr g1 g2).
Proof.
  intros Hin Hlt. revert row.
  induction range2 as [|g range2 IH]; intros row.
  - by apply elem_of_nil in Hin.
  - rewrite fill_row_cons.
    destruct (decide (g2 ∈ range2)) as [Hin'|Hout]; [by apply IH|].
    apply elem_of_cons in Hin as [->|Hin]; [|done].
    rewrite fill_row_untouched by by left.
    unfold fill_cell. rewrite bool_decide_eq_false_2 by done.
    apply lookup_insert_eq.
Qed.

Lemma fill_table_untouched range1 range2 results g1 :
  g1 ∉ range1 →
  fill_table yf_Ticker globals ticker dr tgr range1 range2 results !! g1
  = results !! g1.
Proof.
  intros H. revert results.
  induction range1 as [|g range1 IH]; intros results; [done|].
  rewrite fill_table_cons, IH.
  - apply lookup_insert_ne. intros ->. apply H. by left.
  - intros Hin. apply H. by right.
Qed.

Lemma fill_table_row range1 range2 results g1 :
  g1 ∈ range1 →
  fill_table yf_Ticker globals ticker dr tgr range1 range2 results !! g1
  = Some (fill_row yf_Ticker globals ticker dr tgr g1 range2 ∅).
Proof.
  intros Hin. revert results.
  induction range1 as [|g range1 IH]; intros results.
  - by apply elem_of_nil in Hin.
  - rewrite fill_table_cons.
    destruct (decide (g1 ∈ range1)) as [Hin'|Hout]; [by apply IH|].
    apply elem_of_cons in Hin as [->|Hin]; [|done].
    rewrite fill_table_untouched by done.
    apply lookup_insert_eq.
Qed.

End SweepFacts.

(** ** Missing figures *)

Lemma figure_Some c : is_Some (figure c) → ∃ q, c = Num q.
Proof. destruct c as [|x]; intros [y H]; [discriminate | eauto]. Qed.

Lemma retrieve_missing ticker stock f :
  missing_exactly stock f →
  retrieve ticker stock = Return (inl (error_record (missing_message f))).
Proof.
  intros (h & Hh & Hmiss). unfold held in Hh. unfold retrieve.
  destruct stock as [[i|] [cf|] [bs|]]; simpl in *; try discriminate.
  destruct (decide (i = ∅)) as [->|Hi]; [done|].
  rewrite (bool_decide_eq_false_2 (Some i = Some ∅)) by congruence.
  rewrite (bool_decide_eq_false_2 (i = ∅)) in Hh by done.
  destruct (df_empty cf); [discriminate|].
  destruct (df_empty bs); [discriminate|]. simpl in *.
  destruct (loc cf "Free Cash Flow" ≫= iloc0) as [fcf|]; [|discriminate].
  match type of Hh with
  | context [if ?b then ?x else ?y] =>
      destruct (if b then x else y) as [tl|]; [|discriminate]
  end.
  destruct (loc bs "Cash And Cash Equivalents" ≫= iloc0) as [cash|];
    [|discriminate].
  injection Hh as <-.
  assert (∀ f', f' ≠ f → is_Some
            (match f' with
             | FreeCashFlow => figure fcf
             | MarketCap => i !! "marketCap"
             | CurrentPrice => i !! "currentPrice"
             | TotalLiabilities => figure tl
             | CashAndEquivalents => figure cash
             | SharesOutstanding => i !! "sharesOutstanding"
             end)) as Hpresent.
  { intros f' Hne. apply not_eq_None_Some. intros HN. by apply Hmiss in HN. }
  pose proof (proj2 (Hmiss f) eq_refl) as Hf.
  destruct f; simpl in Hf.
  - destruct fcf; [done|discriminate].
  - destruct (figure_Some fcf (Hpresent FreeCashFlow ltac:(done))) as [? ->].
    simpl. by rewrite Hf.
  - destruct (figure_Some fcf (Hpresent FreeCashFlow ltac:(done))) as [? ->].
    destruct (Hpresent MarketCap ltac:(done)) as [? ->].
    simpl. by rewrite Hf.
  - destruct (figure_Some fcf (Hpresent FreeCashFlow ltac:(done))) as [? ->].
    destruct (Hpresent MarketCap ltac:(done)) as [? ->].
    destruct (Hpresent CurrentPrice ltac:(done)) as [? ->].
    simpl. destruct tl; [done|discriminate].
  - destruct (figure_Some fcf (Hpresent FreeCashFlow ltac:(done))) as [? ->].
    destruct (Hpresent MarketCap ltac:(done)) as [? ->].
    destruct (Hpresent CurrentPrice ltac:(done)) as [? ->].
    destruct (figure_Some tl (Hpresent TotalLiabilities ltac:(done))) as [? ->].
    simpl. destruct cash; [done|discriminate].
  - destruct (figure_Some fcf (Hpresent FreeCashFlow ltac:(done))) as [? ->].
    destruct (Hpresent MarketCap ltac:(done)) as [? ->].
    destruct (Hpresent CurrentPrice ltac:(done)) as [? ->].
    destruct (figure_Some tl (Hpresent TotalLiabilities ltac:(done))) as [? ->].
    destruct (figure_Some cash (Hpresent CashAndEquivalents ltac:(done)))
      as [? ->].
    simpl. by rewrite Hf.
Qed.

(** ** The sample answers *)

Lemma retrieve_acme : retrieve "ACME" acme = Return (inr acme_facts).
Proof. vm_compute. reflexivity. Qed.

Lemma acme_rates : valid_rates (dec 9 100) (dec 1 10) (dec 5 100) (dec 3 100).
Proof. by_computation. Qed.

Lemma no_liabilities_co_missing :
  missing_exactly no_liabilities_co TotalLiabilities.
Proof.
  eexists. split; [reflexivity|].
  intros []; split; intros H; try done; vm_compute in H; discriminate.
Qed.

Lemma no_cash_co_missing : missing_exactly no_cash_co CashAndEquivalents.
Proof.
  eexists. split; [reflexivity|].
  intros []; split; intros H; try done; vm_compute in H; discriminate.
Qed.

Lemma no_price_co_missing : missing_exactly no_price_co CurrentPrice.
Proof.
  eexists. split; [reflexivity|].
  intros []; split; intros H; try done; vm_compute in H; discriminate.
Qed.

(** * Lemmas for the further properties *)
(** ** Retrieval *)

Lemma loc_absent df label :
  label ∉ df.*1 → loc df label = Raise (KeyError label).
Proof.
  induction df as [|[l row] df IH]; intros H; simpl; [done|].
  rewrite decide_False.
  - apply IH. intros Hin. apply H. simpl. by right.
  - intros ->. apply H. simpl. by left.
Qed.

Lemma retrieve_sources ticker stock i cf bs :
  sources stock i cf bs →
  retrieve ticker stock
  = (free_cash_flow ← loc cf "Free Cash Flow" ≫= iloc0;
     match free_cash_flow with
     | NaN => Return (inl (error_record "Free Cash Flow data unavailable."))
     | Num free_cash_flow =>
     match i !! "marketCap" with
     | None =>
         Return (inl (error_record "Market capitalization data unavailable."))
     | Some market_cap =>
     match i !! "currentPrice" with
     | None => Return (inl (error_record "Current price data unavailable."))
     | Some current_price =>
     total_liabilities ← liabilities_cell bs;
     cash_and_equivalents ← loc bs "Cash And Cash Equivalents" ≫= iloc0;
     match total_liabilities, cash_and_equivalents with
     | Num total_liabilities, Num cash_and_equivalents =>
     match i !! "sharesOutstanding" with
     | None => Return (inl (error_record "Shares outstanding unavailable."))
     | Some shares_outstanding =>
         Return (inr {| free_cash_flow := free_cash_flow;
                        market_cap := market_cap;
                        current_price := current_price;
                        total_liabilities := total_liabilities;
                        cash_and_equivalents := cash_and_equivalents;
                        shares_outstanding := shares_outstanding |})
     end
     | _, _ => Return (inl (error_record "Net Debt data unavailable"))
     end end end end).
Proof.
  intros (Hi & Hne & Hcf & Hcfe & Hbs & Hbse). unfold retrieve.
  rewrite Hi, Hcf, Hbs.
  rewrite (bool_decide_eq_false_2 (Some i = None)) by done.
  rewrite (bool_decide_eq_false_2 (Some i = Some ∅)) by congruence.
  cbn [orb]. by rewrite Hcfe, Hbse.
Qed.

Lemma df_empty_first_column df : df_empty (first_column df) = df_empty df.
Proof.
  unfold df_empty, first_column. induction df as [|[l row] df IH]; [done|].
  cbn [fmap list_fmap forallb]. fold (first_column df) in *.
  unfold first_column in *. rewrite IH. by destruct row.
Qed.

Lemma loc_first_column df label :
  loc (first_column df) label ≫= iloc0 = loc df label ≫= iloc0.
Proof.
  induction df as [|[l row] df IH]; [done|].
  cbn [first_column fmap list_fmap loc]. simpl.
  destruct (decide (l = label)); [by destruct row | exact IH].
Qed.

Lemma in_index_first_column label df :
  in_index label (first_column df) = in_index label df.
Proof.
  unfold in_index, first_column.
  by rewrite <-list_fmap_compose.
Qed.

Lemma small_info_nonempty : small_info ≠ ∅.
Proof.
  intros H. apply (f_equal (λ m : gmap string Qc, m !! "volume")) in H.
  vm_compute in H. discriminate.
Qed.

Lemma retrieve_latest_only ticker stock :
  retrieve ticker (latest_only stock) = retrieve ticker stock.
Proof.
  unfold retrieve, latest_only. destruct stock as [i cf bs]. cbn [info cashflow balance_sheet].
  destruct (bool_decide (i = None) || bool_decide (i = Some ∅)); [done|].
  destruct cf as [cf|]; [|done]. cbn [fmap option_fmap option_map].
  rewrite df_empty_first_column. destruct (df_empty cf); [done|].
  destruct bs as [bs|]; [|done]. cbn [fmap option_fmap option_map].
  rewrite df_empty_first_column. destruct (df_empty bs); [done|].
  destruct i as [i|]; [|done].
  rewrite !loc_first_column, !in_index_first_column. done.
Qed.

(** ** Arithmetic of the valuation *)

Lemma Qcmult_cancel_l (a x y : Qc) : a ≠ 0 → a * x = a * y → x = y.
Proof.
  intros Ha H.
  assert (a * (x - y) = 0) as H0.
  { replace (a * (x - y)) with (a * x - a * y) by ring. rewrite H. ring. }
  apply Qcmult_integral in H0 as [?|H0]; [done|].
  replace x with (x - y + y) by ring. rewrite H0. ring.
Qed.

Lemma Qcdiv_zero_iff (a b : Qc) : b ≠ 0 → a / b = 0 ↔ a = 0.
Proof.
  intros Hb. split.
  - intros H. rewrite <-(Qcmult_div_r a b Hb), H. ring.
  - intros ->. unfold Qcdiv. ring.
Qed.

Lemma Qcpower_nonzero (x : Qc) (n : nat) : x ≠ 0 → x ^ n ≠ 0.
Proof.
  intros Hx. induction n as [|n IH]; simpl; [done|].
  intros H. by apply Qcmult_integral in H as [?|?].
Qed.

Lemma Qcplus_one_zero_iff (x : Qc) : 1 + x = 0 ↔ x = -1.
Proof.
  split.
  - intros H. rewrite <-(Qcplus_0_l (-1)), <-H. ring.
  - intros ->. ring.
Qed.

Lemma Qcdiv_pos (a b : Qc) : 0 < a → 0 < b → 0 < a / b.
Proof. intros Ha Hb. unfold Qcdiv. apply Qcmult_pos_pos; [done|]. by apply Qcinv_pos. Qed.

Section TerminalValue.

Variables (facts : FinancialFacts) (N : Z) (dr g1 g2 tgr : Qc).
Hypothesis Hvalid : valid_rates dr g1 g2 tgr.
Hypothesis HN : (1 ≤ N)%Z.

Lemma projected_zero_iff :
  projected (free_cash_flow facts) g1 g2 N = 0
  ↔ free_cash_flow facts = 0 ∨ rate_of_year g1 g2 N = -1.
Proof.
  unfold projected. split.
  - intros H. apply Qcmult_integral in H as [?|H]; [by left|]. right.
    apply Qcplus_one_zero_iff. destruct (decide (1 + rate_of_year g1 g2 N = 0)); [done|].
    by apply Qcpower_nonzero in H.
  - intros [->| ->%Qcplus_one_zero_iff]; [ring|].
    rewrite Qcpower_0 by lia. ring.
Qed.

Lemma terminal_value_zero_iff :
  terminal_value_of facts N dr g1 g2 tgr = 0
  ↔ free_cash_flow facts = 0 ∨ rate_of_year g1 g2 N = -1 ∨ tgr = -1.
Proof.
  unfold terminal_value_of.
  rewrite (Qcdiv_zero_iff _ _ (rate_gap_nonzero dr g1 g2 tgr Hvalid)).
  split.
  - intros H. apply Qcmult_integral in H as [H|H].
    + apply projected_zero_iff in H. tauto.
    + apply Qcplus_one_zero_iff in H. tauto.
  - intros [H|[H|H]].
    + rewrite (proj2 projected_zero_iff) by auto. ring.
    + rewrite (proj2 projected_zero_iff) by auto. ring.
    + apply Qcplus_one_zero_iff in H. rewrite H. ring.
Qed.



(** The implied growth rate: NaN when the terminal value is zero, plus
    infinity when the ratio of the base cash flow to the terminal value
    is -1, the quotient otherwise. *)
Lemma implied_growth_cases :
  let ratio := free_cash_flow facts / terminal_value_of facts N dr g1 g2 tgr in
  implied_growth_of facts N dr g1 g2 tgr
  = if decide (terminal_value_of facts N dr g1 g2 tgr = 0) then NotANumber
    else if decide (1 + ratio = 0) then Infinity false
    else Finite ((dr - ratio) / (1 + ratio)).
Proof.
  intros ratio. unfold implied_growth_of, ratio.
  destruct (decide (terminal_value_of facts N dr g1 g2 tgr = 0)) as [->|Htv].
  - rewrite truediv_by_zero. destruct (decide (free_cash_flow facts = 0));
      [reflexivity|].
    by destruct (negative (free_cash_flow facts)).
  - rewrite (truediv_finite _ _ Htv).
    cbn [np_subtract np_add np_negative].
    set (q := free_cash_flow facts / terminal_value_of facts N dr g1 g2 tgr).
    destruct (decide (1 + q = 0)) as [Hq|Hq].
    + rewrite Hq, truediv_by_zero.
      assert (dr + - q = 1 + dr) as ->.
      { replace q with (1 + q - 1) by ring. rewrite Hq. ring. }
      pose proof Hvalid as ((Hdr & _) & _).
      assert (0 < 1 + dr) as Hpos by by apply Qcplus_pos_nonneg.
      rewrite decide_False by by apply not_eq_sym, Qclt_not_eq.
      unfold negative. rewrite bool_decide_eq_false_2; [done|].
      by apply Qcle_not_lt, Qclt_le_weak.
    + by rewrite truediv_finite.
Qed.

End TerminalValue.

(** ** Order *)


Lemma Qcplus_one_nonneg (x : Qc) : -1 ≤ x → 0 ≤ 1 + x.
Proof.
  intros H. apply (Qcplus_le_mono_l _ _ 1) in H.
  by replace (1 + -1) with (Q2Qc 0) in H by ring.
Qed.








Lemma Qcpower_lt_mono (x y : Qc) (n : nat) :
  0 ≤ x → x < y → x ^ S n < y ^ S n.
Proof.
  intros Hx Hxy.
  assert (0 < y) as Hy by (by apply Qcle_lt_trans with x).
  induction n as [|n IH].
  - simpl. by rewrite !Qcmult_1_r.
  - change (x * x ^ S n < y * y ^ S n).
    apply Qcle_lt_trans with (x * y ^ S n).
    + apply Qcmult_le_mono_nonneg_l; [done|]. by apply Qclt_le_weak.
    + apply Qcmult_lt_mono_pos_r; [|done]. by apply Qcpower_pos_strict.
Qed.

Lemma Qcpower_inj_nonneg (x y : Qc) (n : nat) :
  0 ≤ x → 0 ≤ y → x ^ S n = y ^ S n → x = y.
Proof.
  intros Hx Hy H.
  destruct (Qclt_le_dec x y) as [Hlt|Hle].
  - apply (Qcpower_lt_mono _ _ n Hx) in Hlt. rewrite H in Hlt.
    by apply Qclt_not_eq in Hlt.
  - apply Qcle_lt_or_eq in Hle as [Hlt|?]; [|done].
    apply (Qcpower_lt_mono _ _ n Hy) in Hlt. rewrite H in Hlt.
    by apply Qclt_not_eq in Hlt.
Qed.

Lemma range1_prefix N N' : (N ≤ N')%Z → range1 N `prefix_of` range1 N'.
Proof.
  intros H. unfold range1.
  replace (Z.to_nat N') with (Z.to_nat N + (Z.to_nat N' - Z.to_nat N))%nat
    by lia.
  rewrite seq_app, fmap_app. by apply prefix_app_r.
Qed.

Lemma fmap_prefix {A B} (f : A → B) (l1 l2 : list A) :
  l1 `prefix_of` l2 → (f <$> l1) `prefix_of` (f <$> l2).
Proof. intros [k ->]. rewrite fmap_app. by apply prefix_app_r. Qed.

Lemma acme_valuation N :
  (1 ≤ N)%Z →
  discounted_cash_flow (λ _, acme) "ACME" N (dec 9 100) (dec 1 10) (dec 5 100)
    (dec 3 100)
  = Return (valuation_of acme_facts N (dec 9 100) (dec 1 10) (dec 5 100)
              (dec 3 100)).
Proof.
  intros HN. apply discounted_cash_flow_success;
    [exact acme_rates | exact retrieve_acme | exact HN].
Qed.

(** ** The table of a sweep *)

Section TableFacts.

Variable yf_Ticker : string → Ticker.
Variable globals : Globals.
Variables (ticker : string) (dr tgr : Qc).

Lemma fill_row_empty_lookup g1 range2 g2 :
  fill_row yf_Ticker globals ticker dr tgr g1 range2 ∅ !! g2
  = if decide (g2 ∈ range2 ∧ ¬ g1 < g2)
    then Some (cell_value yf_Ticker globals ticker dr tgr g1 g2)
    else None.
Proof.
  case_decide as H.
  - destruct H. by apply fill_row_evaluated.
  - rewrite fill_row_untouched; [done|].
    destruct (decide (g2 ∈ range2)); [right | by left].
    destruct (decide (g1 < g2)); [done|]. by destruct H.
Qed.

Lemma fill_table_empty_lookup range1 range2 g1 :
  fill_table yf_Ticker globals ticker dr tgr range1 range2 ∅ !! g1
  = if decide (g1 ∈ range1)
    then Some (fill_row yf_Ticker globals ticker dr tgr g1 range2 ∅)
    else None.
Proof.
  case_decide as H.
  - by apply fill_table_row.
  - by rewrite fill_table_untouched.
Qed.

End TableFacts.

(** * The claims *)

(** ** The valuation engine *)





(** C9 (as amended).  With valid rates, retrieved figures and a horizon
    of zero or less, validation lets the call through, the projection
    loop leaves both sequences empty, reading the last projected cash
    flow raises [IndexError], and the function returns the generic
    unexpected-error record. *)
Theorem nonpositive_horizon_generic_error
    (yf : string → Ticker) ticker N dr g1 g2 tgr facts :
  valid_rates dr g1 g2 tgr → (N ≤ 0)%Z →
  retrieve ticker (yf ticker) = Return (inr facts) →
  validate dr g1 g2 tgr = Return () ∧
  projection_loop (free_cash_flow facts) dr g1 g2 (range1 N) [] []
  = Return ([], []) ∧
  last_item [] = Raise (IndexError "list index out of range") ∧
  discounted_cash_flow yf ticker N dr g1 g2 tgr
  = Return {[ "Error Message" :=
                VStr "An unexpected error occurred: list index out of range" ]}.
Proof.
  intros Hv HN Hr. pose proof Hv as ((Hdr & _) & _).
  split; [by apply validate_valid|].
  split; [by rewrite range1_nonpos|]. split; [done|].
  rewrite (discounted_cash_flow_with_facts yf _ _ _ _ _ _ facts) by done.
  by rewrite (calculations_nonpositive_horizon facts N dr g1 g2 tgr Hv HN).
Qed.

Lemma nonpositive_horizon_generic_error_witness :
  valid_rates (dec 9 100) (dec 1 10) (dec 5 100) (dec 3 100) ∧ (0 ≤ 0)%Z ∧
  retrieve "ACME" acme = Return (inr acme_facts) ∧
  discounted_cash_flow (λ _, acme) "ACME" 0 (dec 9 100) (dec 1 10) (dec 5 100)
    (dec 3 100)
  = Return {[ "Error Message" :=
                VStr "An unexpected error occurred: list index out of range" ]}.
Proof.
  split; [exact acme_rates|]. split; [lia|]. split; [exact retrieve_acme|].
  apply (nonpositive_horizon_generic_error (λ _, acme) "ACME" 0 (dec 9 100)
           (dec 1 10) (dec 5 100) (dec 3 100) acme_facts acme_rates);
    [lia | exact retrieve_acme].
Defined.

(** C9, the claim as stated fails: the figures are retrieved before the
    projection loop, so with valid rates and a horizon of zero a ticker
    the provider does not know is reported as an invalid ticker symbol,
    and the last element of an empty sequence is never read. *)
Lemma nonpositive_horizon_unknown_ticker :
  valid_rates (dec 9 100) (dec 1 10) (dec 5 100) (dec 3 100) ∧ (0 ≤ 0)%Z ∧
  discounted_cash_flow (λ _, unknown_co) "XXXX" 0 (dec 9 100) (dec 1 10)
    (dec 5 100) (dec 3 100)
  = Return {[ "Error Message" := VStr "Invalid ticker symbol: XXXX" ]} ∧
  discounted_cash_flow (λ _, unknown_co) "XXXX" 0 (dec 9 100) (dec 1 10)
    (dec 5 100) (dec 3 100)
  ≠ Return {[ "Error Message" :=
                VStr "An unexpected error occurred: list index out of range" ]}.
Proof.
  assert (discounted_cash_flow (λ _, unknown_co) "XXXX" 0 (dec 9 100)
            (dec 1 10) (dec 5 100) (dec 3 100)
          = Return {[ "Error Message" := VStr "Invalid ticker symbol: XXXX" ]})
    as E by (vm_compute; reflexivity).
  split; [exact acme_rates|]. split; [lia|]. split; [exact E|].
  rewrite E. intros [=].
Qed.



(** C4 (as amended).  With valid rates, retrieved figures, a horizon of
    at least one year and powers within the range of a double, the
    function returns a successful valuation whatever the free cash flow.
    A free cash flow of exactly zero is not flagged: the price-to-FCF
    ratio of the record is an infinity with the sign of the market
    capitalisation (NaN when the market capitalisation is zero too) and
    its implied growth rate is NaN.  For a non-zero free cash flow,
    negative included, the ratio is the quotient
    [market_cap / free_cash_flow]. *)
Theorem zero_fcf_gives_nonfinite_ratio
    (yf : string → Ticker) ticker N dr g1 g2 tgr facts :
  valid_rates dr g1 g2 tgr →
  retrieve ticker (yf ticker) = Return (inr facts) →
  (1 ≤ N)%Z → powers_in_range N dr g1 g2 →
  ∃ r, discounted_cash_flow yf ticker N dr g1 g2 tgr = Return r ∧
       r !! "Error Message" = Some VNone ∧
       (free_cash_flow facts = 0 →
        r !! "Implied Growth Rate" = Some (VNum NotANumber) ∧
        (market_cap facts = 0 →
         r !! "Price to FCF (YoY)" = Some (VNum NotANumber)) ∧
        (market_cap facts ≠ 0 →
         r !! "Price to FCF (YoY)"
         = Some (VNum (Infinity (negative (market_cap facts)))))) ∧
       (free_cash_flow facts ≠ 0 →
        r !! "Price to FCF (YoY)"
        = Some (VNum (Finite (market_cap facts / free_cash_flow facts)))).
Proof.
  intros Hv Hr HN _.
  exists (valuation_of facts N dr g1 g2 tgr).
  split; [by apply discounted_cash_flow_success|]. split; [reflexivity|].
  pose proof (valuation_of_lookups facts N dr g1 g2 tgr)
    as (_ & _ & _ & _ & _ & _ & _ & _ & _ & Hg & _ & _ & _ & _ & Hp & _).
  rewrite Hg, Hp. unfold price_to_fcf_of. split.
  - intros Hzero. split; [|split].
    + rewrite implied_growth_cases by done.
      rewrite decide_True; [done|].
      apply (terminal_value_zero_iff facts N dr g1 g2 tgr Hv HN). by left.
    + intros Hmc. rewrite Hzero, Hmc, truediv_by_zero. by rewrite decide_True.
    + intros Hmc. rewrite Hzero, truediv_by_zero. by rewrite decide_False.
  - intros Hne. by rewrite truediv_finite.
Qed.

Lemma zero_fcf_gives_nonfinite_ratio_witness :
  valid_rates (dec 9 100) (dec 1 10) (dec 5 100) (dec 3 100) ∧
  retrieve "SMAL" (small_co (Num 0)) = Return (inr (small_facts 0)) ∧
  (1 ≤ 10)%Z ∧ powers_in_range 10 (dec 9 100) (dec 1 10) (dec 5 100) ∧
  free_cash_flow (small_facts 0) = 0 ∧
  ∃ r, discounted_cash_flow (λ _, small_co (Num 0)) "SMAL" 10 (dec 9 100)
         (dec 1 10) (dec 5 100) (dec 3 100) = Return r ∧
       r !! "Error Message" = Some VNone ∧
       r !! "Implied Growth Rate" = Some (VNum NotANumber).
Proof.
  assert (powers_in_range 10 (dec 9 100) (dec 1 10) (dec 5 100)) as Hrange
    by by_computation.
  split; [exact acme_rates|]. split; [reflexivity|]. split; [lia|].
  split; [exact Hrange|]. split; [reflexivity|].
  destruct (zero_fcf_gives_nonfinite_ratio (λ _, small_co (Num 0)) "SMAL" 10
              (dec 9 100) (dec 1 10) (dec 5 100) (dec 3 100) (small_facts 0)
              acme_rates eq_refl ltac:(lia) Hrange)
    as (r & Hdcf & Hok & Hzero & _).
  exists r. split; [exact Hdcf|]. split; [exact Hok|].
  exact (proj1 (Hzero eq_refl)).
Defined.

(** C4, the claim as stated fails: with a free cash flow of exactly zero
    the caller receives a successful valuation, with no error message,
    whose price-to-FCF ratio is infinite and whose implied growth rate
    is NaN. *)
Lemma zero_fcf_gives_infinite_ratio :
  retrieve "SMAL" (small_co (Num 0)) = Return (inr (small_facts 0)) ∧
  free_cash_flow (small_facts 0) = 0 ∧
  ∃ r, discounted_cash_flow (λ _, small_co (Num 0)) "SMAL" 10 (dec 9 100)
         (dec 1 10) (dec 5 100) (dec 3 100) = Return r ∧
       r !! "Error Message" = Some VNone ∧
       r !! "Price to FCF (YoY)" = Some (VNum (Infinity false)) ∧
       r !! "Implied Growth Rate" = Some (VNum NotANumber).
Proof.
  split; [reflexivity|]. split; [reflexivity|].
  exists (valuation_of (small_facts 0) 10 (dec 9 100) (dec 1 10) (dec 5 100)
            (dec 3 100)).
  split.
  { apply discounted_cash_flow_success; [exact acme_rates | reflexivity | lia]. }
  split; [reflexivity|].
  pose proof (valuation_of_lookups (small_facts 0) 10 (dec 9 100) (dec 1 10)
                (dec 5 100) (dec 3 100))
    as (_ & _ & _ & _ & _ & _ & _ & _ & _ & Hg & _ & _ & _ & _ & Hp & _).
  rewrite Hg, Hp. split; do 2 f_equal; vm_compute; reflexivity.
Qed.

(** C5 (as amended).  The five checks run in the order discount-rate
    range, years-1-5 range, years-6-plus range, terminal range, ordering;
    the first one that fails raises [ValueError] with its own message.
    The provider, the ticker and the horizon play no part: the error is
    raised before any retrieval, projection or discounting.  The ordering
    error is the one raised when [discount_rate <= terminal_growth_rate]
    and the four range checks pass. *)
Theorem validation_first_failing_check
    (yf : string → Ticker) ticker N dr g1 g2 tgr :
  (¬ 0 ≤ dr ≤ 1 →
   discounted_cash_flow yf ticker N dr g1 g2 tgr
   = Raise (ValueError "Discount rate must be between 0 and 1.")) ∧
  (0 ≤ dr ≤ 1 → ¬ -1 ≤ g1 ≤ 2 →
   discounted_cash_flow yf ticker N dr g1 g2 tgr
   = Raise (ValueError
              "Growth rate (1-5) is outside a reasonable range (-1 to 2).")) ∧
  (0 ≤ dr ≤ 1 → -1 ≤ g1 ≤ 2 → ¬ -1 ≤ g2 ≤ 2 →
   discounted_cash_flow yf ticker N dr g1 g2 tgr
   = Raise (ValueError
              "Growth rate (6-20) is outside a reasonable range (-1 to 2).")) ∧
  (0 ≤ dr ≤ 1 → -1 ≤ g1 ≤ 2 → -1 ≤ g2 ≤ 2 → ¬ -1 ≤ tgr ≤ 1 →
   discounted_cash_flow yf ticker N dr g1 g2 tgr
   = Raise (ValueError
              "Terminal growth rate is outside a reasonable range (-1 to 1).")) ∧
  (0 ≤ dr ≤ 1 → -1 ≤ g1 ≤ 2 → -1 ≤ g2 ≤ 2 → -1 ≤ tgr ≤ 1 → dr ≤ tgr →
   discounted_cash_flow yf ticker N dr g1 g2 tgr
   = Raise (ValueError
              "Discount rate must be greater than terminal growth rate.")).
Proof.
  unfold discounted_cash_flow, validate. split_and!; intros;
    rewrite ?in_range_true by done;
    rewrite ?in_range_false by done;
    rewrite ?bool_decide_eq_true_2 by done; done.
Qed.

Lemma validation_first_failing_check_witness :
  0 ≤ dec 1 20 ≤ 1 ∧ -1 ≤ dec 1 10 ≤ 2 ∧ -1 ≤ dec 1 20 ≤ 2 ∧
  -1 ≤ dec 1 20 ≤ 1 ∧ dec 1 20 ≤ dec 1 20 ∧
  discounted_cash_flow (λ _, acme) "ACME" 10 (dec 1 20) (dec 1 10) (dec 1 20)
    (dec 1 20)
  = Raise (ValueError "Discount rate must be greater than terminal growth rate.").
Proof.
  assert (0 ≤ dec 1 20 ≤ 1) as Hd by by_computation.
  assert (-1 ≤ dec 1 10 ≤ 2) as H1 by by_computation.
  assert (-1 ≤ dec 1 20 ≤ 2) as H2 by by_computation.
  assert (-1 ≤ dec 1 20 ≤ 1) as Ht by by_computation.
  assert (dec 1 20 ≤ dec 1 20) as Hle by by_computation.
  refine (conj Hd (conj H1 (conj H2 (conj Ht (conj Hle _))))).
  exact (proj2 (proj2 (proj2 (proj2
           (validation_first_failing_check (λ _, acme) "ACME" 10 (dec 1 20)
              (dec 1 10) (dec 1 20) (dec 1 20))))) Hd H1 H2 Ht Hle).
Defined.

(** C5, the claim as stated fails: with the discount rate at or below the
    terminal growth rate and the years-1-5 rate out of range, the error is
    the years-1-5 range error, not the ordering error. *)
Lemma ordering_error_masked_by_range_error :
  dec 1 20 ≤ dec 1 20 ∧
  discounted_cash_flow (λ _, acme) "ACME" 10 (dec 1 20) (dec 3 1) (dec 1 20)
    (dec 1 20)
  = Raise (ValueError
             "Growth rate (1-5) is outside a reasonable range (-1 to 2).") ∧
  discounted_cash_flow (λ _, acme) "ACME" 10 (dec 1 20) (dec 3 1) (dec 1 20)
    (dec 1 20)
  ≠ Raise (ValueError "Discount rate must be greater than terminal growth rate.").
Proof. split; [by_computation|]. split; [vm_compute; reflexivity|]. vm_compute. discriminate. Qed.

(** C3 (as amended).  Once the rates pass validation the function always
    returns a record and never raises: missing data, a zero divisor
    (which raises nothing) and any fault inside the [try] block come back
    as a value with an ['Error Message'] entry.  A rate out of range or the ordering
    violation is raised to the caller as [ValueError]. *)
Theorem evaluate_returns_unless_validation_raises
    (yf : string → Ticker) ticker N dr g1 g2 tgr :
  (valid_rates dr g1 g2 tgr →
   ∃ r, discounted_cash_flow yf ticker N dr g1 g2 tgr = Return r ∧
        is_Some (r !! "Error Message")) ∧
  (¬ valid_rates dr g1 g2 tgr →
   ∃ msg, discounted_cash_flow yf ticker N dr g1 g2 tgr
          = Raise (ValueError msg)).
Proof.
  split; intros Hv.
  - rewrite discounted_cash_flow_valid by done.
    destruct (catch_all_returns (try_block yf ticker N dr g1 g2 tgr)) as [r Hr].
    exists r. split; [done|].
    rewrite <-(discounted_cash_flow_valid yf) in Hr by done.
    destruct (discounted_cash_flow_Return_inv _ _ _ _ _ _ _ _ Hr)
      as [_ [(facts & _ & _ & ->)|[msg ->]]]; by eexists.
  - destruct (validate_invalid _ _ _ _ Hv) as [msg Hmsg]. exists msg.
    unfold discounted_cash_flow. by rewrite Hmsg.
Qed.

Lemma evaluate_returns_unless_validation_raises_witness :
  valid_rates (dec 9 100) (dec 1 10) (dec 5 100) (dec 3 100) ∧
  ∃ r, discounted_cash_flow (λ _, small_co NaN) "SMAL" 10 (dec 9 100)
         (dec 1 10) (dec 5 100) (dec 3 100) = Return r ∧
       is_Some (r !! "Error Message").
Proof.
  split; [exact acme_rates|].
  exact (proj1 (evaluate_returns_unless_validation_raises
                  (λ _, small_co NaN) "SMAL" 10 (dec 9 100) (dec 1 10)
                  (dec 5 100) (dec 3 100)) acme_rates).
Defined.

(** C3, the claim as stated fails: an out-of-range discount rate is
    raised as an exception, not returned. *)
Lemma out_of_range_rate_raises :
  discounted_cash_flow (λ _, acme) "ACME" 10 (dec 2 1) (dec 1 10) (dec 5 100)
    (dec 3 100)
  = Raise (ValueError "Discount rate must be between 0 and 1.").
Proof. vm_compute. reflexivity. Qed.

(** C8 (as amended).  With valid rates, when exactly one of the six
    figures is missing the function returns the single-entry record with
    the message of the check that finds it missing, and no valuation.
    Free cash flow, market cap, current price and shares outstanding each
    have a message of their own; total liabilities and cash and
    equivalents share the message "Net Debt data unavailable". *)
Theorem missing_field_message (yf : string → Ticker) ticker N dr g1 g2 tgr f :
  valid_rates dr g1 g2 tgr →
  missing_exactly (yf ticker) f →
  discounted_cash_flow yf ticker N dr g1 g2 tgr
  = Return {[ "Error Message" := VStr (missing_message f) ]} ∧
  ∀ f', missing_message f' = missing_message f ↔
        f' = f ∨ (f = TotalLiabilities ∧ f' = CashAndEquivalents)
               ∨ (f = CashAndEquivalents ∧ f' = TotalLiabilities).
Proof.
  intros Hv Hmiss. split.
  - apply discounted_cash_flow_early; [done|]. by apply retrieve_missing.
  - intros f'. split.
    + destruct f, f'; simpl; intros H; try discriminate; auto.
    + intros [->|[[-> ->]|[-> ->]]]; done.
Qed.

Lemma missing_field_message_witness :
  valid_rates (dec 9 100) (dec 1 10) (dec 5 100) (dec 3 100) ∧
  missing_exactly no_price_co CurrentPrice ∧
  discounted_cash_flow (λ _, no_price_co) "NOPR" 10 (dec 9 100) (dec 1 10)
    (dec 5 100) (dec 3 100)
  = Return {[ "Error Message" := VStr "Current price data unavailable." ]}.
Proof.
  split; [exact acme_rates|]. split; [exact no_price_co_missing|].
  exact (proj1 (missing_field_message (λ _, no_price_co) "NOPR" 10 (dec 9 100)
                  (dec 1 10) (dec 5 100) (dec 3 100) CurrentPrice acme_rates
                  no_price_co_missing)).
Defined.

(** C8, the claim as stated fails: a firm with only its total liabilities
    missing and a firm with only its cash and equivalents missing receive
    the same record, which names neither figure. *)
Lemma net_debt_fields_share_message :
  missing_exactly no_liabilities_co TotalLiabilities ∧
  missing_exactly no_cash_co CashAndEquivalents ∧
  discounted_cash_flow (λ _, no_liabilities_co) "SMAL" 10 (dec 9 100)
    (dec 1 10) (dec 5 100) (dec 3 100)
  = Return {[ "Error Message" := VStr "Net Debt data unavailable" ]} ∧
  discounted_cash_flow (λ _, no_cash_co) "SMAL" 10 (dec 9 100)
    (dec 1 10) (dec 5 100) (dec 3 100)
  = discounted_cash_flow (λ _, no_liabilities_co) "SMAL" 10 (dec 9 100)
      (dec 1 10) (dec 5 100) (dec 3 100).
Proof.
  split; [exact no_liabilities_co_missing|].
  split; [exact no_cash_co_missing|].
  split; vm_compute; reflexivity.
Qed.

(** ** The sensitivity sweep *)

(** C2.  For a pair with the near-term rate below the long-term rate the
    body of the loop leaves the row as it is: no valuation is run, and
    the row of the returned table has no entry under the long-term rate,
    so the cell does not hold the "-" marker (the marker is bound to the
    local [dcf_result] and never stored). *)
Theorem excluded_pair_leaves_no_cell
    (yf : string → Ticker) globals ticker dr tgr range1 range2 g1 g2 :
  g1 ∈ range1 → g2 ∈ range2 → g1 < g2 →
  (∀ row, sweep_cell yf globals ticker dr tgr g1 g2 row = Return row) ∧
  ∃ table row,
    sensitivity_analysis yf globals ticker dr range1 range2 tgr = Return table ∧
    table !! g1 = Some row ∧
    row !! g2 = None ∧ row !! g2 ≠ Some (VStr "-").
Proof.
  intros H1 H2 Hlt. split.
  - intros row. rewrite sweep_cell_fill. unfold fill_cell.
    by rewrite bool_decide_eq_true_2.
  - eexists _, _. split; [apply sensitivity_analysis_fill|].
    split; [by apply fill_table_row|].
    rewrite fill_row_untouched by by right. done.
Qed.

Lemma excluded_pair_leaves_no_cell_witness :
  (0:Qc) ∈ [(0:Qc); dec 1 50] ∧ dec 1 50 ∈ [(0:Qc); dec 1 50] ∧
  0 < dec 1 50 ∧
  ∃ table row,
    sensitivity_analysis (λ _, acme) sample_globals "ACME" (dec 9 100)
      [0; dec 1 50] [0; dec 1 50] (dec 3 100) = Return table ∧
    table !! (0:Qc) = Some row ∧ row !! dec 1 50 = None.
Proof.
  assert ((0:Qc) ∈ [(0:Qc); dec 1 50]) as H1 by (left).
  assert (dec 1 50 ∈ [(0:Qc); dec 1 50]) as H2 by (right; left).
  assert (0 < dec 1 50) as Hlt by by_computation.
  split; [exact H1|]. split; [exact H2|]. split; [exact Hlt|].
  destruct (proj2 (excluded_pair_leaves_no_cell (λ _, acme) sample_globals
                     "ACME" (dec 9 100) (dec 3 100) [0; dec 1 50] [0; dec 1 50]
                     0 (dec 1 50) H1 H2 Hlt))
    as (table & row & Ht & Hrow & Hcell & _).
  exists table, row. split; [exact Ht|]. split; [exact Hrow|exact Hcell].
Defined.

(** C7.  A sweep always returns its table: no exception leaves it.  Each
    evaluated cell (near-term rate not below the long-term rate) depends
    on its own valuation only: it holds [None] when that valuation raises
    or returns an error record, and the intrinsic value per share when it
    succeeds, whatever happens in the other cells. *)
Theorem sweep_isolates_failed_cells
    (yf : string → Ticker) globals ticker dr tgr range1 range2 :
  ∃ table,
    sensitivity_analysis yf globals ticker dr range1 range2 tgr = Return table ∧
    ∀ g1 g2, g1 ∈ range1 → g2 ∈ range2 → ¬ g1 < g2 →
      ∃ row, table !! g1 = Some row ∧
        (∀ e, discounted_cash_flow yf ticker (number_of_years globals) dr g1
                g2 tgr = Raise e →
              row !! g2 = Some VNone) ∧
        (∀ r, discounted_cash_flow yf ticker (number_of_years globals) dr g1
                g2 tgr = Return r →
              r !! "Error Message" ≠ Some VNone →
              row !! g2 = Some VNone) ∧
        (∀ r, discounted_cash_flow yf ticker (number_of_years globals) dr g1
                g2 tgr = Return r →
              r !! "Error Message" = Some VNone →
              ∃ v, r !! "Intrinsic Value per Share" = Some (VNum v) ∧
                   row !! g2 = Some (VNum v)).
Proof.
  eexists. split; [apply sensitivity_analysis_fill|].
  intros g1 g2 H1 H2 Hlt. eexists.
  split; [by apply fill_table_row|].
  rewrite fill_row_evaluated by done.
  unfold cell_value. split_and!.
  - intros e ->. done.
  - intros r Hr Herr. rewrite Hr.
    destruct (discounted_cash_flow_Return_inv _ _ _ _ _ _ _ _ Hr)
      as [_ [(facts & _ & _ & ->)|[msg ->]]].
    + by destruct Herr.
    + by rewrite error_record_other.
  - intros r Hr Hok. rewrite Hr.
    apply discounted_cash_flow_success_inv in Hr as (_ & facts & _ & _ & ->);
      [|done].
    eexists. split; reflexivity.
Qed.

Lemma sweep_isolates_failed_cells_witness :
  ∃ table,
    sensitivity_analysis (λ _, acme) sample_globals "ACME" (dec 9 100)
      [dec 1 20; dec 3 1] [dec 1 20] (dec 3 100) = Return table ∧
    (∃ row, table !! dec 3 1 = Some row ∧ row !! dec 1 20 = Some VNone) ∧
    (∃ row v, table !! dec 1 20 = Some row ∧
              row !! dec 1 20 = Some (VNum v) ∧
              v = intrinsic_value_of acme_facts 10 (dec 9 100) (dec 1 20)
                    (dec 1 20) (dec 3 100)).
Proof.
  destruct (sweep_isolates_failed_cells (λ _, acme) sample_globals "ACME"
              (dec 9 100) (dec 3 100) [dec 1 20; dec 3 1] [dec 1 20])
    as (table & Htable & Hcells).
  exists table. split; [exact Htable|]. split.
  - destruct (Hcells (dec 3 1) (dec 1 20)) as (row & Hrow & Hraise & _);
      [right; left | left | by_computation |].
    exists row. split; [exact Hrow|].
    apply (Hraise (ValueError
             "Growth rate (1-5) is outside a reasonable range (-1 to 2).")).
    vm_compute. reflexivity.
  - destruct (Hcells (dec 1 20) (dec 1 20)) as (row & Hrow & _ & _ & Hok);
      [left | left | by_computation |].
    assert (discounted_cash_flow (λ _, acme) "ACME"
              (number_of_years sample_globals) (dec 9 100) (dec 1 20)
              (dec 1 20) (dec 3 100)
            = Return (valuation_of acme_facts 10 (dec 9 100) (dec 1 20)
                        (dec 1 20) (dec 3 100))) as Hdcf.
    { apply discounted_cash_flow_success;
        [by_computation | exact retrieve_acme | simpl; lia]. }
    destruct (Hok _ Hdcf eq_refl) as (v & Hv & Hcell).
    exists row, v. split; [exact Hrow|]. split; [exact Hcell|].
    rewrite (proj1 (valuation_of_lookups acme_facts 10 (dec 9 100) (dec 1 20)
                      (dec 1 20) (dec 3 100))) in Hv.
    congruence.
Defined.
(** * Further properties *)

(** ** Retrieval *)

(** X1.  With valid rates, a ticker whose [info] is [None] or the empty
    dictionary is reported as an invalid ticker symbol, whatever the two
    statements hold and whatever the horizon. *)
Theorem invalid_ticker_reported (yf : string → Ticker) ticker N dr g1 g2 tgr :
  valid_rates dr g1 g2 tgr →
  info (yf ticker) = None ∨ info (yf ticker) = Some ∅ →
  discounted_cash_flow yf ticker N dr g1 g2 tgr
  = Return {[ "Error Message" :=
                VStr ("Invalid ticker symbol: " +:+ ticker) ]}.
Proof.
  intros Hv Hinfo. apply discounted_cash_flow_early; [done|].
  unfold retrieve. by destruct Hinfo as [-> | ->].
Qed.

Lemma invalid_ticker_reported_witness :
  valid_rates (dec 9 100) (dec 1 10) (dec 5 100) (dec 3 100) ∧
  (info unknown_co = None ∨ info unknown_co = Some ∅) ∧
  discounted_cash_flow (λ _, unknown_co) "XXXX" 10 (dec 9 100) (dec 1 10)
    (dec 5 100) (dec 3 100)
  = Return {[ "Error Message" := VStr "Invalid ticker symbol: XXXX" ]}.
Proof.
  split; [exact acme_rates|]. split; [right; reflexivity|].
  exact (invalid_ticker_reported (λ _, unknown_co) "XXXX" 10 (dec 9 100)
           (dec 1 10) (dec 5 100) (dec 3 100) acme_rates
           (or_intror eq_refl)).
Defined.

(** X2.  With valid rates and a non-empty [info], a cash-flow statement
    that is [None] or empty is reported as unavailable; when it is
    there, a balance sheet that is [None] or empty is reported as
    unavailable.  The cash-flow statement is checked first. *)
Theorem statement_unavailable_reported
    (yf : string → Ticker) ticker N dr g1 g2 tgr i :
  valid_rates dr g1 g2 tgr →
  info (yf ticker) = Some i → i ≠ ∅ →
  (unavailable (cashflow (yf ticker)) = true →
   discounted_cash_flow yf ticker N dr g1 g2 tgr
   = Return {[ "Error Message" :=
                 VStr "Cash flow statement data unavailable." ]}) ∧
  (unavailable (cashflow (yf ticker)) = false →
   unavailable (balance_sheet (yf ticker)) = true →
   discounted_cash_flow yf ticker N dr g1 g2 tgr
   = Return {[ "Error Message" := VStr "Balance sheet data unavailable." ]}).
Proof.
  intros Hv Hi Hne.
  assert (bool_decide (info (yf ticker) = None)
          || bool_decide (info (yf ticker) = Some ∅) = false) as Hgate.
  { rewrite Hi. rewrite (bool_decide_eq_false_2 (Some i = None)) by done.
    by rewrite (bool_decide_eq_false_2 (Some i = Some ∅)) by congruence. }
  split.
  - intros Hcf. apply discounted_cash_flow_early; [done|].
    unfold retrieve. rewrite Hgate.
    destruct (cashflow (yf ticker)) as [cf|]; simpl in *; [|done].
    by rewrite Hcf.
  - intros Hcf Hbs. apply discounted_cash_flow_early; [done|].
    unfold retrieve. rewrite Hgate.
    destruct (cashflow (yf ticker)) as [cf|]; simpl in *; [|done].
    rewrite Hcf.
    destruct (balance_sheet (yf ticker)) as [bs|]; simpl in *; [|done].
    by rewrite Hbs.
Qed.

Lemma statement_unavailable_reported_witness :
  valid_rates (dec 9 100) (dec 1 10) (dec 5 100) (dec 3 100) ∧
  info no_cashflow_co = Some small_info ∧ small_info ≠ ∅ ∧
  unavailable (cashflow no_cashflow_co) = true ∧
  discounted_cash_flow (λ _, no_cashflow_co) "SMAL" 10 (dec 9 100) (dec 1 10)
    (dec 5 100) (dec 3 100)
  = Return {[ "Error Message" :=
                VStr "Cash flow statement data unavailable." ]}.
Proof.
  split; [exact acme_rates|]. split; [reflexivity|].
  split; [exact small_info_nonempty|]. split; [reflexivity|].
  exact (proj1 (statement_unavailable_reported (λ _, no_cashflow_co) "SMAL" 10
                  (dec 9 100) (dec 1 10) (dec 5 100) (dec 3 100) small_info
                  acme_rates eq_refl small_info_nonempty) eq_refl).
Defined.

(** X3.  A statement that lacks a row the code reads is not reported as
    missing data: the [KeyError] of the lookup reaches the catch-all
    handler, and the returned message is the unexpected-error text
    followed by the quoted row label.  This holds for the free-cash-flow
    row, for the liabilities rows (both labels absent) and for the cash
    row. *)
Theorem missing_row_named_by_catch_all
    (yf : string → Ticker) ticker N dr g1 g2 tgr i cf bs :
  valid_rates dr g1 g2 tgr →
  sources (yf ticker) i cf bs →
  ("Free Cash Flow" ∉ cf.*1 →
   discounted_cash_flow yf ticker N dr g1 g2 tgr
   = Return {[ "Error Message" :=
                 VStr "An unexpected error occurred: 'Free Cash Flow'" ]}) ∧
  (∀ fcf mc cp,
     loc cf "Free Cash Flow" ≫= iloc0 = Return (Num fcf) →
     i !! "marketCap" = Some mc → i !! "currentPrice" = Some cp →
     ("Total Liabilities Net Minority Interest" ∉ bs.*1 →
      "Total Liabilities" ∉ bs.*1 →
      discounted_cash_flow yf ticker N dr g1 g2 tgr
      = Return {[ "Error Message" :=
                    VStr "An unexpected error occurred: 'Total Liabilities'" ]}) ∧
     (∀ tl, liabilities_cell bs = Return tl →
      "Cash And Cash Equivalents" ∉ bs.*1 →
      discounted_cash_flow yf ticker N dr g1 g2 tgr
      = Return {[ "Error Message" :=
                    VStr "An unexpected error occurred: 'Cash And Cash Equivalents'" ]})).
Proof.
  intros Hv Hs.
  rewrite discounted_cash_flow_valid by done. unfold try_block.
  rewrite (retrieve_sources _ _ _ _ _ Hs). split.
  - intros Habs. rewrite (loc_absent _ _ Habs). reflexivity.
  - intros fcf mc cp Hfcf Hmc Hcp. rewrite Hfcf. cbn [mbind outcome_bind].
    rewrite Hmc, Hcp. split.
    + intros H1 H2. unfold liabilities_cell, in_index.
      rewrite bool_decide_eq_false_2 by done.
      rewrite (loc_absent _ _ H2). reflexivity.
    + intros tl Htl Habs. rewrite Htl. cbn [mbind outcome_bind].
      rewrite (loc_absent _ _ Habs). reflexivity.
Qed.

Lemma missing_row_named_by_catch_all_witness :
  valid_rates (dec 9 100) (dec 1 10) (dec 5 100) (dec 3 100) ∧
  sources no_fcf_row_co small_info capex_only small_balance ∧
  ("Free Cash Flow" ∉ capex_only.*1) ∧
  discounted_cash_flow (λ _, no_fcf_row_co) "SMAL" 10 (dec 9 100) (dec 1 10)
    (dec 5 100) (dec 3 100)
  = Return {[ "Error Message" :=
                VStr "An unexpected error occurred: 'Free Cash Flow'" ]}.
Proof.
  assert (sources no_fcf_row_co small_info capex_only small_balance) as Hs.
  { repeat split. exact small_info_nonempty. }
  assert ("Free Cash Flow" ∉ capex_only.*1) as Habs.
  { apply (bool_decide_unpack _). vm_compute. exact I. }
  split; [exact acme_rates|]. split; [exact Hs|]. split; [exact Habs|].
  exact (proj1 (missing_row_named_by_catch_all (λ _, no_fcf_row_co) "SMAL" 10
                  (dec 9 100) (dec 1 10) (dec 5 100) (dec 3 100) small_info _
                  small_balance acme_rates Hs) Habs).
Defined.
(** X4.  Which liabilities row is read depends on the presence of the
    label only.  When the label 'Total Liabilities Net Minority Interest'
    is absent the figure comes from the row 'Total Liabilities'; when it
    is present its first cell is used, and a NaN there is reported as
    missing net debt even if the row 'Total Liabilities' holds a
    figure. *)
Theorem liabilities_row_chosen_by_label
    (yf : string → Ticker) ticker N dr g1 g2 tgr i cf bs fcf mc cp cash so :
  valid_rates dr g1 g2 tgr →
  sources (yf ticker) i cf bs →
  loc cf "Free Cash Flow" ≫= iloc0 = Return (Num fcf) →
  i !! "marketCap" = Some mc → i !! "currentPrice" = Some cp →
  i !! "sharesOutstanding" = Some so →
  loc bs "Cash And Cash Equivalents" ≫= iloc0 = Return (Num cash) →
  (∀ tl, "Total Liabilities Net Minority Interest" ∉ bs.*1 →
         loc bs "Total Liabilities" ≫= iloc0 = Return (Num tl) →
         retrieve ticker (yf ticker)
         = Return (inr {| free_cash_flow := fcf; market_cap := mc;
                          current_price := cp; total_liabilities := tl;
                          cash_and_equivalents := cash;
                          shares_outstanding := so |})) ∧
  (∀ tl, "Total Liabilities Net Minority Interest" ∈ bs.*1 →
         loc bs "Total Liabilities Net Minority Interest" ≫= iloc0
         = Return (Num tl) →
         retrieve ticker (yf ticker)
         = Return (inr {| free_cash_flow := fcf; market_cap := mc;
                          current_price := cp; total_liabilities := tl;
                          cash_and_equivalents := cash;
                          shares_outstanding := so |})) ∧
  ("Total Liabilities Net Minority Interest" ∈ bs.*1 →
   loc bs "Total Liabilities Net Minority Interest" ≫= iloc0 = Return NaN →
   discounted_cash_flow yf ticker N dr g1 g2 tgr
   = Return {[ "Error Message" := VStr "Net Debt data unavailable" ]}).
Proof.
  intros Hv Hs Hfcf Hmc Hcp Hso Hcash.
  rewrite discounted_cash_flow_valid by done. unfold try_block.
  rewrite (retrieve_sources _ _ _ _ _ Hs).
  rewrite Hfcf. cbn [mbind outcome_bind]. rewrite Hmc, Hcp, Hcash.
  unfold liabilities_cell, in_index. split_and!.
  - intros tl Habs Htl. rewrite bool_decide_eq_false_2 by done.
    rewrite Htl. cbn [mbind outcome_bind]. by rewrite Hso.
  - intros tl Hin Htl. rewrite bool_decide_eq_true_2 by done.
    rewrite Htl. cbn [mbind outcome_bind]. by rewrite Hso.
  - intros Hin Htl. rewrite bool_decide_eq_true_2 by done.
    rewrite Htl. reflexivity.
Qed.

Lemma liabilities_row_chosen_by_label_witness :
  valid_rates (dec 9 100) (dec 1 10) (dec 5 100) (dec 3 100) ∧
  sources nan_primary_co small_info small_cashflow nan_primary_balance ∧
  ("Total Liabilities Net Minority Interest" ∈ nan_primary_balance.*1) ∧
  loc nan_primary_balance "Total Liabilities" ≫= iloc0
  = Return (Num (dec 4000000 1)) ∧
  discounted_cash_flow (λ _, nan_primary_co) "SMAL" 10 (dec 9 100) (dec 1 10)
    (dec 5 100) (dec 3 100)
  = Return {[ "Error Message" := VStr "Net Debt data unavailable" ]}.
Proof.
  assert (sources nan_primary_co small_info small_cashflow
            nan_primary_balance) as Hs.
  { repeat split. exact small_info_nonempty. }
  assert ("Total Liabilities Net Minority Interest"
            ∈ nan_primary_balance.*1) as Hin by (left).
  split; [exact acme_rates|]. split; [exact Hs|]. split; [exact Hin|].
  split; [reflexivity|].
  exact (proj2 (proj2 (liabilities_row_chosen_by_label (λ _, nan_primary_co)
           "SMAL" 10 (dec 9 100) (dec 1 10) (dec 5 100) (dec 3 100)
           small_info small_cashflow nan_primary_balance (dec 1000000 1)
           (dec 20000000 1) (dec 15 1) (dec 1000000 1) (dec 1000000 1)
           acme_rates Hs eq_refl eq_refl eq_refl eq_refl eq_refl))
           Hin eq_refl).
Defined.

(** X5.  Only the first column of each statement is read: cutting both
    statements down to their first column changes nothing in what the
    function returns or raises. *)
Theorem only_first_column_read (yf : string → Ticker) ticker N dr g1 g2 tgr :
  discounted_cash_flow (λ t, latest_only (yf t)) ticker N dr g1 g2 tgr
  = discounted_cash_flow yf ticker N dr g1 g2 tgr.
Proof.
  unfold discounted_cash_flow. by rewrite retrieve_latest_only.
Qed.

(** ** The calculations *)





(** X8.  The market capitalisation and the current price take no part
    in the discounting: two sets of figures that agree on the free cash
    flow, the liabilities, the cash and the share count give, when the
    first valuation succeeds, a second successful valuation with the
    same projections, present values, terminal value, enterprise value,
    equity value, net debt, implied growth rate and intrinsic value per
    share. *)
Theorem valuation_ignores_market_figures
    (yf yf' : string → Ticker) ticker N dr g1 g2 tgr facts facts' r :
  retrieve ticker (yf ticker) = Return (inr facts) →
  retrieve ticker (yf' ticker) = Return (inr facts') →
  free_cash_flow facts' = free_cash_flow facts →
  total_liabilities facts' = total_liabilities facts →
  cash_and_equivalents facts' = cash_and_equivalents facts →
  shares_outstanding facts' = shares_outstanding facts →
  discounted_cash_flow yf ticker N dr g1 g2 tgr = Return r →
  r !! "Error Message" = Some VNone →
  ∃ r', discounted_cash_flow yf' ticker N dr g1 g2 tgr = Return r' ∧
        r' !! "Error Message" = Some VNone ∧
        ∀ key, key ∈ ["Projected FCFs"; "Present Values"; "Terminal Value";
                      "Present Value of Terminal Value"; "Enterprise Value";
                      "Net Debt"; "Equity Value"; "Implied Growth Rate";
                      "Intrinsic Value per Share"] →
               r' !! key = r !! key.
Proof.
  intros Hr Hr' Hfcf Htl Hcash Hso Hdcf Hok.
  apply discounted_cash_flow_success_inv in Hdcf
    as (Hv & facts0 & Hr0 & HN & ->); [|done].
  assert (facts0 = facts) as -> by congruence.
  exists (valuation_of facts' N dr g1 g2 tgr).
  destruct facts as [fcf mc cp tl cash so], facts' as [fcf' mc' cp' tl' cash' so'].
  simpl in *. subst fcf' tl' cash' so'.
  split; [|split; [reflexivity|]].
  - by apply discounted_cash_flow_success.
  - intros key Hkey.
    repeat (apply elem_of_cons in Hkey as [->|Hkey]); try reflexivity.
    by apply elem_of_nil in Hkey.
Qed.

Lemma valuation_ignores_market_figures_witness :
  let facts' := {| free_cash_flow := dec 5000000000 1; market_cap := 1;
                   current_price := dec 90 1;
                   total_liabilities := dec 40000000000 1;
                   cash_and_equivalents := dec 10000000000 1;
                   shares_outstanding := dec 1000000000 1 |} in
  let acme' := sample_ticker (Num (dec 5000000000 1))
                 (Num (dec 40000000000 1)) (Num (dec 10000000000 1))
                 (Some 1) (Some (dec 90 1)) (Some (dec 1000000000 1)) in
  let r := valuation_of acme_facts 10 (dec 9 100) (dec 1 10) (dec 5 100)
             (dec 3 100) in
  retrieve "ACME" acme' = Return (inr facts') ∧
  discounted_cash_flow (λ _, acme) "ACME" 10 (dec 9 100) (dec 1 10) (dec 5 100)
    (dec 3 100) = Return r ∧
  ∃ r', discounted_cash_flow (λ _, acme') "ACME" 10 (dec 9 100) (dec 1 10)
          (dec 5 100) (dec 3 100) = Return r' ∧
        r' !! "Intrinsic Value per Share" = r !! "Intrinsic Value per Share".
Proof.
  intros facts' acme' r.
  assert (retrieve "ACME" acme' = Return (inr facts')) as Hr'
    by (vm_compute; reflexivity).
  assert (discounted_cash_flow (λ _, acme) "ACME" 10 (dec 9 100) (dec 1 10)
            (dec 5 100) (dec 3 100) = Return r) as Hdcf.
  { apply discounted_cash_flow_success;
      [exact acme_rates | exact retrieve_acme | lia]. }
  split; [exact Hr'|]. split; [exact Hdcf|].
  destruct (valuation_ignores_market_figures (λ _, acme) (λ _, acme') "ACME"
              10 (dec 9 100) (dec 1 10) (dec 5 100) (dec 3 100) acme_facts
              facts' r retrieve_acme Hr' eq_refl eq_refl eq_refl eq_refl
              Hdcf eq_refl) as (r' & Hdcf' & _ & Hsame).
  exists r'. split; [exact Hdcf'|]. apply Hsame.
  do 8 right. left.
Defined.





(** X11.  In a successful valuation whose upside/downside and intrinsic
    value are finite, the upside/downside is zero exactly when the
    intrinsic value equals the current price; for a positive price it is
    positive exactly when the intrinsic value is above the price, and
    for a negative price the sign is reversed. *)
Theorem upside_sign_follows_price
    (yf : string → Ticker) ticker N dr g1 g2 tgr r (u v p : Qc) :
  discounted_cash_flow yf ticker N dr g1 g2 tgr = Return r →
  r !! "Error Message" = Some VNone →
  r !! "Upside/Downside" = Some (VNum (Finite u)) →
  r !! "Intrinsic Value per Share" = Some (VNum (Finite v)) →
  r !! "Current Share Price" = Some (VNum (Finite p)) →
  (u = 0 ↔ v = p) ∧
  (0 < p → (0 < u ↔ p < v)) ∧
  (p < 0 → (0 < u ↔ v < p)).
Proof.
  intros Hdcf Hok Hu Hv Hp.
  apply discounted_cash_flow_success_inv in Hdcf
    as (_ & facts & _ & _ & ->); [|done].
  rewrite (proj1 (proj2 (proj2 (valuation_of_lookups facts N dr g1 g2 tgr))))
    in Hu.
  rewrite (proj1 (valuation_of_lookups facts N dr g1 g2 tgr)) in Hv.
  rewrite (proj1 (proj2 (valuation_of_lookups facts N dr g1 g2 tgr))) in Hp.
  injection Hu as Hu. injection Hv as Hv. injection Hp as <-.
  unfold upside_downside_of in Hu. rewrite Hv in Hu.
  cbn [np_subtract np_add np_negative] in Hu.
  set (p := current_price facts) in *.
  assert (p ≠ 0) as Hcp.
  { apply (truediv_finite_iff (v + - p) p). by rewrite Hu. }
  rewrite (truediv_finite _ _ Hcp) in Hu. injection Hu as <-.
  fold (v - p). split_and!.
  - rewrite (Qcdiv_zero_iff _ _ Hcp). split.
    + intros H. replace v with (v - p + p) by ring. rewrite H. ring.
    + intros ->. ring.
  - intros Hpos. rewrite (Qclt_minus_iff p v). fold (v - p). split.
    + intros H. replace (v - p) with ((v - p) / p * p) by (field; done).
      by apply Qcmult_pos_pos.
    + intros H. by apply Qcdiv_pos.
  - intros Hneg. rewrite (Qclt_minus_iff v p). fold (p - v).
    assert (0 < - p) as Hnp.
    { apply Qclt_minus_iff in Hneg. by rewrite Qcplus_0_l in Hneg. }
    assert (- p ≠ 0) as Hnp0 by (by apply not_eq_sym, Qclt_not_eq).
    replace ((v - p) / p) with ((p - v) / - p) by (field; done). split.
    + intros H. replace (p - v) with ((p - v) / - p * - p) by (field; done).
      by apply Qcmult_pos_pos.
    + intros H. by apply Qcdiv_pos.
Qed.

Lemma upside_sign_follows_price_witness :
  let r := valuation_of acme_facts 10 (dec 9 100) (dec 1 10) (dec 5 100)
             (dec 3 100) in
  let v := equity_value_of acme_facts 10 (dec 9 100) (dec 1 10) (dec 5 100)
             (dec 3 100) / dec 1000000000 1 in
  let u := (v - dec 150 1) / dec 150 1 in
  discounted_cash_flow (λ _, acme) "ACME" 10 (dec 9 100) (dec 1 10) (dec 5 100)
    (dec 3 100) = Return r ∧
  r !! "Error Message" = Some VNone ∧
  r !! "Upside/Downside" = Some (VNum (Finite u)) ∧
  r !! "Intrinsic Value per Share" = Some (VNum (Finite v)) ∧
  r !! "Current Share Price" = Some (VNum (Finite (dec 150 1))) ∧
  0 < dec 150 1 ∧ (0 < u ↔ dec 150 1 < v).
Proof.
  intros r v u.
  assert (discounted_cash_flow (λ _, acme) "ACME" 10 (dec 9 100) (dec 1 10)
            (dec 5 100) (dec 3 100) = Return r) as Hdcf
    by (apply acme_valuation; lia).
  assert (dec 1000000000 1 ≠ 0) as Hso by by_computation.
  assert (dec 150 1 ≠ 0) as Hcp by by_computation.
  assert (r !! "Intrinsic Value per Share" = Some (VNum (Finite v))) as Hv.
  { unfold r. rewrite (proj1 (valuation_of_lookups acme_facts 10 (dec 9 100)
                                (dec 1 10) (dec 5 100) (dec 3 100))).
    unfold intrinsic_value_of.
    change (shares_outstanding acme_facts) with (dec 1000000000 1).
    by rewrite (truediv_finite _ _ Hso). }
  assert (r !! "Upside/Downside" = Some (VNum (Finite u))) as Hu.
  { unfold r. rewrite (proj1 (proj2 (proj2 (valuation_of_lookups acme_facts 10
                         (dec 9 100) (dec 1 10) (dec 5 100) (dec 3 100))))).
    unfold upside_downside_of, intrinsic_value_of.
    change (shares_outstanding acme_facts) with (dec 1000000000 1).
    change (current_price acme_facts) with (dec 150 1).
    rewrite (truediv_finite _ _ Hso). cbn [np_subtract np_add np_negative].
    by rewrite (truediv_finite _ _ Hcp). }
  assert (0 < dec 150 1) as Hp by by_computation.
  split; [exact Hdcf|]. split; [reflexivity|]. split; [exact Hu|].
  split; [exact Hv|]. split; [reflexivity|]. split; [exact Hp|].
  exact (proj1 (proj2 (upside_sign_follows_price (λ _, acme) "ACME" 10
                  (dec 9 100) (dec 1 10) (dec 5 100) (dec 3 100) r u v
                  (dec 150 1) Hdcf eq_refl Hu Hv eq_refl)) Hp).
Defined.

(** X12.  A year's projection does not depend on the horizon: when the
    valuations over two horizons both succeed, the projected cash flows
    and the present values of the shorter one are a prefix of those of the
    longer one. *)
Theorem longer_horizon_extends_projection
    (yf : string → Ticker) ticker N N' dr g1 g2 tgr r r' :
  (N ≤ N')%Z →
  discounted_cash_flow yf ticker N dr g1 g2 tgr = Return r →
  r !! "Error Message" = Some VNone →
  discounted_cash_flow yf ticker N' dr g1 g2 tgr = Return r' →
  r' !! "Error Message" = Some VNone →
  ∃ fcfs pvs fcfs' pvs',
    r !! "Projected FCFs" = Some (VList fcfs) ∧
    r !! "Present Values" = Some (VList pvs) ∧
    r' !! "Projected FCFs" = Some (VList fcfs') ∧
    r' !! "Present Values" = Some (VList pvs') ∧
    fcfs `prefix_of` fcfs' ∧ pvs `prefix_of` pvs'.
Proof.
  intros HN Hdcf Hok Hdcf' Hok'.
  apply discounted_cash_flow_success_inv in Hdcf
    as (_ & facts & Hr & _ & ->); [|done].
  apply discounted_cash_flow_success_inv in Hdcf'
    as (_ & facts' & Hr' & _ & ->); [|done].
  assert (facts' = facts) as -> by congruence.
  exists (Finite <$> fcfs_of facts N g1 g2),
    (Finite <$> pvs_of facts N dr g1 g2),
    (Finite <$> fcfs_of facts N' g1 g2),
    (Finite <$> pvs_of facts N' dr g1 g2).
  split_and!; try reflexivity.
  - by apply fmap_prefix, fmap_prefix, range1_prefix.
  - by apply fmap_prefix, fmap_prefix, range1_prefix.
Qed.

Lemma longer_horizon_extends_projection_witness :
  let r := valuation_of acme_facts 5 (dec 9 100) (dec 1 10) (dec 5 100)
             (dec 3 100) in
  let r' := valuation_of acme_facts 10 (dec 9 100) (dec 1 10) (dec 5 100)
              (dec 3 100) in
  (5 ≤ 10)%Z ∧
  discounted_cash_flow (λ _, acme) "ACME" 5 (dec 9 100) (dec 1 10) (dec 5 100)
    (dec 3 100) = Return r ∧
  r !! "Error Message" = Some VNone ∧
  discounted_cash_flow (λ _, acme) "ACME" 10 (dec 9 100) (dec 1 10) (dec 5 100)
    (dec 3 100) = Return r' ∧
  r' !! "Error Message" = Some VNone ∧
  ∃ fcfs fcfs',
    r !! "Projected FCFs" = Some (VList fcfs) ∧
    r' !! "Projected FCFs" = Some (VList fcfs') ∧
    fcfs `prefix_of` fcfs'.
Proof.
  intros r r'.
  assert (discounted_cash_flow (λ _, acme) "ACME" 5 (dec 9 100) (dec 1 10)
            (dec 5 100) (dec 3 100) = Return r) as H5
    by (apply acme_valuation; lia).
  assert (discounted_cash_flow (λ _, acme) "ACME" 10 (dec 9 100) (dec 1 10)
            (dec 5 100) (dec 3 100) = Return r') as H10
    by (apply acme_valuation; lia).
  split; [lia|]. split; [exact H5|]. split; [reflexivity|].
  split; [exact H10|]. split; [reflexivity|].
  destruct (longer_horizon_extends_projection (λ _, acme) "ACME" 5 10
              (dec 9 100) (dec 1 10) (dec 5 100) (dec 3 100) r r'
              ltac:(lia) H5 eq_refl H10 eq_refl)
    as (fcfs & pvs & fcfs' & pvs' & H1 & _ & H2 & _ & Hpre & _).
  exists fcfs, fcfs'. split; [exact H1|]. split; [exact H2|exact Hpre].
Defined.

(** X13.  The projection restarts from the base at year six: in a
    successful valuation over at least six years, with a free cash flow
    other than zero and a years-6-plus rate other than -1, the sixth
    projected cash flow is the fifth one grown by the years-6-plus rate
    exactly when the two growth rates are equal. *)
Theorem sixth_year_restarts_from_base
    (yf : string → Ticker) ticker N dr g1 g2 tgr r fcfs (fcf y5 y6 : Qc) :
  discounted_cash_flow yf ticker N dr g1 g2 tgr = Return r →
  r !! "Error Message" = Some VNone →
  (6 ≤ N)%Z →
  r !! "Free Cash Flow" = Some (VNum (Finite fcf)) → fcf ≠ 0 → g2 ≠ -1 →
  r !! "Projected FCFs" = Some (VList fcfs) →
  fcfs !! 4%nat = Some (Finite y5) → fcfs !! 5%nat = Some (Finite y6) →
  y6 = y5 * (1 + g2) ↔ g1 = g2.
Proof.
  intros Hdcf Hok HN Hbase Hfcf Hrate Hf H5 H6.
  apply discounted_cash_flow_success_inv in Hdcf
    as (Hv & facts & _ & _ & ->); [|done].
  rewrite (proj1 (proj2 (proj2 (proj2
    (valuation_of_lookups facts N dr g1 g2 tgr))))) in Hbase.
  injection Hbase as Hbase.
  rewrite (proj1 (proj2 (proj2 (proj2 (proj2 (proj2 (proj2
    (valuation_of_lookups facts N dr g1 g2 tgr)))))))) in Hf.
  injection Hf as <-. unfold fcfs_of in H5, H6.
  rewrite list_lookup_fmap in H5, H6.
  rewrite (projected_lookup _ g1 g2 N 5) in H5 by lia.
  rewrite (projected_lookup _ g1 g2 N 6) in H6 by lia.
  rewrite bool_decide_eq_true_2 in H5 by lia.
  rewrite bool_decide_eq_false_2 in H6 by lia.
  injection H5 as <-. injection H6 as <-. rewrite Hbase.
  assert (1 + g2 ≠ 0) as Hg2 by by rewrite Qcplus_one_zero_iff.
  split.
  - intros H.
    change (fcf * ((1 + g2) * (1 + g2) ^ 5) = fcf * (1 + g1) ^ 5 * (1 + g2)) in H.
    replace (fcf * (1 + g1) ^ 5 * (1 + g2))
      with (fcf * ((1 + g2) * (1 + g1) ^ 5)) in H by ring.
    apply Qcmult_cancel_l in H; [|done].
    apply Qcmult_cancel_l in H; [|done].
    destruct Hv as (_ & (H1 & _) & (H2 & _) & _).
    apply Qcpower_inj_nonneg in H; [| by apply Qcplus_one_nonneg..].
    replace g1 with (1 + g1 - 1) by ring. rewrite <-H. ring.
  - intros ->. simpl. ring.
Qed.

Lemma sixth_year_restarts_from_base_witness :
  let r := valuation_of acme_facts 10 (dec 9 100) (dec 1 10) (dec 5 100)
             (dec 3 100) in
  let fcfs := Finite <$> fcfs_of acme_facts 10 (dec 1 10) (dec 5 100) in
  let y5 := dec 5000000000 1 * (1 + dec 1 10) ^ 5 in
  let y6 := dec 5000000000 1 * (1 + dec 5 100) ^ 6 in
  discounted_cash_flow (λ _, acme) "ACME" 10 (dec 9 100) (dec 1 10) (dec 5 100)
    (dec 3 100) = Return r ∧
  r !! "Error Message" = Some VNone ∧ (6 ≤ 10)%Z ∧
  r !! "Free Cash Flow" = Some (VNum (Finite (dec 5000000000 1))) ∧
  dec 5000000000 1 ≠ 0 ∧ dec 5 100 ≠ -1 ∧
  r !! "Projected FCFs" = Some (VList fcfs) ∧
  fcfs !! 4%nat = Some (Finite y5) ∧ fcfs !! 5%nat = Some (Finite y6) ∧
  y6 ≠ y5 * (1 + dec 5 100).
Proof.
  intros r fcfs y5 y6.
  assert (discounted_cash_flow (λ _, acme) "ACME" 10 (dec 9 100) (dec 1 10)
            (dec 5 100) (dec 3 100) = Return r) as Hdcf
    by (apply acme_valuation; lia).
  assert (fcfs !! 4%nat = Some (Finite y5)) as H5 by reflexivity.
  assert (fcfs !! 5%nat = Some (Finite y6)) as H6 by reflexivity.
  assert (dec 5000000000 1 ≠ 0) as Hfcf by by_computation.
  assert (dec 5 100 ≠ -1) as Hrate by by_computation.
  split; [exact Hdcf|].
  split; [reflexivity|]. split; [lia|]. split; [reflexivity|].
  split; [exact Hfcf|]. split; [exact Hrate|]. split; [reflexivity|].
  split; [exact H5|]. split; [exact H6|].
  intros H.
  apply (sixth_year_restarts_from_base (λ _, acme) "ACME" 10 (dec 9 100)
           (dec 1 10) (dec 5 100) (dec 3 100) r fcfs (dec 5000000000 1) y5 y6
           Hdcf eq_refl ltac:(lia) eq_refl Hfcf Hrate eq_refl H5 H6) in H.
  revert H. apply (bool_decide_unpack _). vm_compute. exact I.
Defined.
(** ** The sweep *)

(** X14.  The table of a sweep has one row per near-term rate swept, and
    the row of a rate holds one cell per long-term rate that is not above
    it; in particular empty ranges give an empty table or empty rows. *)
Theorem sweep_table_shape
    (yf : string → Ticker) globals ticker dr tgr range1 range2 :
  ∃ table,
    sensitivity_analysis yf globals ticker dr range1 range2 tgr = Return table ∧
    dom table = list_to_set range1 ∧
    ∀ g1 row, table !! g1 = Some row →
      g1 ∈ range1 ∧
      dom row = list_to_set (filter (λ g2, ¬ g1 < g2) range2).
Proof.
  eexists. split; [apply sensitivity_analysis_fill|]. split.
  - apply set_eq. intros g1.
    rewrite elem_of_dom, fill_table_empty_lookup, elem_of_list_to_set.
    case_decide; split; try done.
  - intros g1 row. rewrite fill_table_empty_lookup.
    case_decide as Hin; [|done]. intros [= <-]. split; [done|].
    apply set_eq. intros g2.
    rewrite elem_of_dom, fill_row_empty_lookup, elem_of_list_to_set,
      list_elem_of_filter.
    case_decide as H.
    + split; [intros _; tauto | by eexists].
    + split; [by intros [? ?] | intros [? ?]; by destruct H].
Qed.

Lemma sweep_table_shape_witness :
  ∃ table row,
    sensitivity_analysis (λ _, acme) sample_globals "ACME" (dec 9 100)
      [0; dec 1 50] [0; dec 1 50] (dec 3 100) = Return table ∧
    table !! (0 : Qc) = Some row ∧
    dom table = list_to_set [0; dec 1 50] ∧
    dom row = list_to_set (filter (λ g2, ¬ 0 < g2) [0; dec 1 50]).
Proof.
  destruct (sweep_table_shape (λ _, acme) sample_globals "ACME" (dec 9 100)
              (dec 3 100) [0; dec 1 50] [0; dec 1 50])
    as (table & Htable & Hdom & Hrows).
  assert (is_Some (table !! (0 : Qc))) as [row Hrow].
  { apply elem_of_dom. rewrite Hdom. apply elem_of_list_to_set. left. }
  exists table, row. split; [exact Htable|]. split; [exact Hrow|].
  split; [exact Hdom|]. exact (proj2 (Hrows 0 row Hrow)).
Defined.

(** X16.  A sweep never reads the record of the main valuation: the
    display lines inside the last handler are never run, so the table is
    the same whatever the global [dcf_results] holds, bound or not. *)
Theorem sweep_never_reads_main_valuation
    (yf : string → Ticker) (N : Z) (main main' : option (gmap string pyval))
    ticker dr tgr range1 range2 :
  sensitivity_analysis yf {| number_of_years := N; dcf_results := main |}
    ticker dr range1 range2 tgr
  = sensitivity_analysis yf {| number_of_years := N; dcf_results := main' |}
      ticker dr range1 range2 tgr.
Proof. rewrite !sensitivity_analysis_fill. reflexivity. Qed.

(** ** Styling *)

(** X17.  For a non-negative price and a non-negative safety factor the
    comparison style splits the numbers into three bands: red below the
    price, green above the price raised by the safety factor, no style
    in between, bounds included.  A cell or a price that is not a number
    gets no style. *)
Theorem comparison_style_bands (v p sf : Qc) :
  0 ≤ p → 0 ≤ sf →
  (style_comparison (VNum v) (VNum p) sf = "background-color: red" ↔ v < p) ∧
  (style_comparison (VNum v) (VNum p) sf = "background-color: green"
   ↔ p * (1 + sf) < v) ∧
  (style_comparison (VNum v) (VNum p) sf = EmptyString
   ↔ p ≤ v ≤ p * (1 + sf)) ∧
  style_comparison VNone (VNum p) sf = EmptyString ∧
  style_comparison (VNum v) VNone sf = EmptyString.
Proof.
  intros Hp Hsf.
  assert (p ≤ p * (1 + sf)) as Hband.
  { trans (p * 1); [by rewrite Qcmult_1_r|].
    apply Qcmult_le_mono_nonneg_l; [done|].
    apply (Qcplus_le_mono_l _ _ 1) in Hsf. by rewrite Qcplus_0_r in Hsf. }
  unfold style_comparison. cbn [np_less np_multiply]. split_and!; try done.
  - repeat case_bool_decide; split; try done; discriminate.
  - repeat case_bool_decide; split; try done; try discriminate.
    intros Hgreen. exfalso.
    apply (Qclt_not_le v p); [done|].
    apply Qclt_le_weak. by apply Qcle_lt_trans with (p * (1 + sf)).
  - repeat case_bool_decide; split; try done; try discriminate.
    + intros [Hle _]. by apply Qcle_not_lt in Hle.
    + intros [_ Hle]. by apply Qcle_not_lt in Hle.
    + intros _. split; by apply Qcnot_lt_le.
Qed.

Lemma comparison_style_bands_witness :
  0 ≤ dec 150 1 ∧ 0 ≤ dec 1 5 ∧
  dec 150 1 ≤ dec 180 1 ≤ dec 150 1 * (1 + dec 1 5) ∧
  style_comparison (VNum (dec 180 1)) (VNum (dec 150 1)) (dec 1 5)
  = EmptyString.
Proof.
  assert (0 ≤ dec 150 1) as Hp by by_computation.
  assert (0 ≤ dec 1 5) as Hsf by by_computation.
  assert (dec 150 1 ≤ dec 180 1 ≤ dec 150 1 * (1 + dec 1 5)) as Hband
    by by_computation.
  split; [exact Hp|]. split; [exact Hsf|]. split; [exact Hband|].
  exact (proj2 (proj1 (proj2 (proj2 (comparison_style_bands (dec 180 1)
                  (dec 150 1) (dec 1 5) Hp Hsf)))) Hband).
Defined.

(** X18.  The up/downside style reads a module-level name
    [current_price] that the module never binds: as long as the name is
    unbound, every number raises [NameError] and only a value that is
    not a number gets an answer (no style).  Were the name bound to a
    number, a non-negative safety factor would give the bands red below
    zero, green above the safety factor, no style in between. *)
Theorem up_downside_style_needs_bound_price (sf v : Qc) (price : Qc) :
  style_up_downside None sf (VNum v) = Raise (NameError "current_price") ∧
  style_up_downside None sf VNone = Return EmptyString ∧
  (0 ≤ sf →
   (style_up_downside (Some (VNum price)) sf (VNum v)
    = Return "background-color: red" ↔ v < 0) ∧
   (style_up_downside (Some (VNum price)) sf (VNum v)
    = Return "background-color: green" ↔ sf < v) ∧
   (style_up_downside (Some (VNum price)) sf (VNum v)
    = Return EmptyString ↔ 0 ≤ v ≤ sf)).
Proof.
  split; [done|]. split; [done|]. intros Hsf.
  unfold style_up_downside. cbn [np_less]. split_and!.
  - repeat case_bool_decide; split; try done; discriminate.
  - repeat case_bool_decide; split; try done; try discriminate.
    intros Hgreen. exfalso. apply (Qclt_not_le v 0); [done|].
    apply Qclt_le_weak. by apply Qcle_lt_trans with sf.
  - repeat case_bool_decide; split; try done; try discriminate.
    + intros [Hle _]. by apply Qcle_not_lt in Hle.
    + intros [_ Hle]. by apply Qcle_not_lt in Hle.
    + intros _. split; by apply Qcnot_lt_le.
Qed.

Lemma up_downside_style_needs_bound_price_witness :
  0 ≤ dec 1 5 ∧ dec 1 5 < dec 1 2 ∧
  style_up_downside (Some (VNum (dec 150 1))) (dec 1 5) (VNum (dec 1 2))
  = Return "background-color: green".
Proof.
  assert (0 ≤ dec 1 5) as Hsf by by_computation.
  assert (dec 1 5 < dec 1 2) as Hv by by_computation.
  split; [exact Hsf|]. split; [exact Hv|].
  exact (proj2 (proj1 (proj2 (proj2 (proj2 (up_downside_style_needs_bound_price
                  (dec 1 5) (dec 1 2) (dec 150 1))) Hsf))) Hv).
Defined.
